(** * BodyArchitect client: session, route guard, loaders and upload flow

    A shallow embedding of the React client's control flow:
    - [frontend/src/App.js]            (App, PrivateRoute, Dashboard, ProgressPage)
    - [frontend/src/pages/AnalysisPage.js]
    - the AuthPage component (login / register form)

    The browser and React runtime are modelled by a [World] record
    (localStorage, the router history, toasts, console, issued requests and
    the App component's [isAuthenticated] hook).  Every handler is a
    computation in a small state-and-exception monad over the world and the
    hooks of the component it belongs to; answers of the backend are inputs
    of the handlers (a [Promise] with its settlement time and outcome). *)

From stdpp Require Import base gmap strings list.
From Stdlib Require Import Ascii ZArith QArith Qround Qabs DecimalString DecimalN Lia Lqa.

Set Warnings "-clear-no-such-hyp".

Close Scope Q_scope.
Open Scope string_scope.
Open Scope list_scope.

(* ===================================================================== *)
(** ** JavaScript values used by the client *)
(* ===================================================================== *)

(** Truthiness of a value that is a string, [null] or [undefined]
    ([None]): the empty string is falsy like [null]. *)
Definition truthy (v : option string) : bool :=
  match v with
  | Some s => negb (String.eqb s "")
  | None => false
  end.

(** [a || b] on such a value with a string default. *)
Definition or_else (v : option string) (d : string) : string :=
  if truthy v then default d v else d.

(** Template-literal substitution of a string-or-null value. *)
Definition ToString (v : option string) : string :=
  match v with
  | Some s => s
  | None => "null"
  end.

(** What a JSX expression slot [{...}] receives: a string or a number. *)
Inductive Rendered :=
| RString (s : string)
| RNumber (n : Z).

(** Decimal digits of a natural number, ["0"] for zero. *)
Definition digits (n : N) : string := NilZero.string_of_uint (N.to_uint n).

Definition pow10_21 : Z := 10 ^ 21.

(** [Number.prototype.toFixed(0)] on a finite number (ECMA-262 21.1.3.3):
    the sign is split off, the magnitude is rounded to the nearest integer
    with ties going to the larger one, and printed in decimal; magnitudes
    of 10^21 and above are printed by [Number::toString], which is a
    parameter here. *)
Definition toFixed0 (Number_toString : Q -> string) (x : Q) : string :=
  let s := if Qlt_le_dec x 0 then "-" else "" in
  let x := if Qlt_le_dec x 0 then Qopp x else x in
  let m := if Qlt_le_dec x (inject_Z pow10_21)
           then digits (Z.to_N (Qfloor (Qplus x (1 # 2))))
           else Number_toString x in
  s +:+ m.

(** Reading back a decimal integer string with an optional minus sign. *)
Definition parseInt (s : string) : option Z :=
  match NilZero.int_of_string s with
  | Some (Decimal.Pos d) => Some (Z.of_N (N.of_uint d))
  | Some (Decimal.Neg d) => Some (Z.opp (Z.of_N (N.of_uint d)))
  | None => None
  end.

(* ===================================================================== *)
(** ** Data model of the HTTP contract *)
(* ===================================================================== *)

Record User := mkUser {
  user_id : string;
  name : string;
  email : string }.

Record Analysis := mkAnalysis {
  analysis_id : string;                       (* [id] *)
  analysis_date : string;
  progress_score : option Q;                  (* [None]: null or missing *)
  muscle_groups : list (string * string);
  weak_areas : option (list string);
  recommendations : option (list string);
  overall_assessment : option string;
  image_base64 : option string }.

Record ProgressStats := mkStats {
  total_analyses : Z;
  current_streak : Z;
  improvement_percentage : Q;
  muscle_development : list (string * string) }.

(** Body of a successful login / register answer. *)
Record AuthData := mkAuthData {
  token : string;
  user : User }.

(** Body of an error answer: [{ detail }]. *)
Record ErrorBody := mkErrorBody { detail : option string }.

(** An axios response object, [{ status, data }]. *)
Record AxiosResponse (A : Type) := mkResponse {
  status : Z;
  data : A }.
Arguments mkResponse {A} _ _.
Arguments status {A} _.
Arguments data {A} _.

(** An axios error; [response] is missing when the network failed. *)
Record AxiosError := mkError {
  response : option (AxiosResponse (option ErrorBody)) }.

(** [error.response?.status === 401] *)
Definition status_is (error : AxiosError) (code : Z) : bool :=
  match response error with
  | Some r => Z.eqb (status r) code
  | None => false
  end.

(** [error.response?.data?.detail] *)
Definition response_detail (error : AxiosError) : option string :=
  r ← response error; b ← data r; detail b.

(** A selected file and the change event of the file input. *)
Record File := mkFile {
  file_name : string;
  type : string }.

Record ChangeEvent := mkChange { files : list File }.

(* ===================================================================== *)
(** ** Promises *)
(* ===================================================================== *)

Inductive Outcome (T : Type) :=
| Fulfilled (v : T)
| Rejected (e : AxiosError).
Arguments Fulfilled {T} _.
Arguments Rejected {T} _.

(** A promise together with the instant at which it settles. *)
Record Promise (T : Type) := mkPromise {
  settled_at : nat;
  outcome : Outcome T }.
Arguments mkPromise {T} _ _.
Arguments settled_at {T} _.
Arguments outcome {T} _.

Definition fulfilled {T} (p : Promise T) : bool :=
  match outcome p with
  | Fulfilled _ => true
  | Rejected _ => false
  end.

(** [Promise.all] of two promises: fulfilled with both values once both
    are; otherwise rejected with the reason of the rejection that settles
    first (the earlier array position wins a tie). *)
Definition Promise_all2 {A B} (p : Promise A) (q : Promise B) : Promise (A * B) :=
  match outcome p, outcome q with
  | Fulfilled a, Fulfilled b => mkPromise (Nat.max (settled_at p) (settled_at q)) (Fulfilled (a, b))
  | Rejected e, Fulfilled _ => mkPromise (settled_at p) (Rejected e)
  | Fulfilled _, Rejected e => mkPromise (settled_at q) (Rejected e)
  | Rejected e1, Rejected e2 =>
      if Nat.leb (settled_at p) (settled_at q)
      then mkPromise (settled_at p) (Rejected e1)
      else mkPromise (settled_at q) (Rejected e2)
  end.

(** [Promise.all] of three promises. *)
Definition Promise_all3 {A B C} (p : Promise A) (q : Promise B) (r : Promise C)
  : Promise (A * B * C) :=
  let j := Promise_all2 p (Promise_all2 q r) in
  mkPromise (settled_at j)
    match outcome j with
    | Fulfilled (a, (b, c)) => Fulfilled (a, b, c)
    | Rejected e => Rejected e
    end.

(* ===================================================================== *)
(** ** The world outside the components *)
(* ===================================================================== *)

Inductive Method := GET | POST.

Inductive Body :=
| NoBody
| JsonBody (fields : list (string * string))
| FormData (entries : list (string * File)).

Record Request := mkRequest {
  method : Method;
  url : string;
  headers : list (string * string);
  body : Body }.

Inductive Toast :=
| toast_Success (msg : string)
| toast_Error (msg : string).

Record World := mkWorld {
  localStorage : gmap string string;
  isAuthenticated : bool;                   (* hook of the App component *)
  history : list string;                    (* router entries, oldest first *)
  toasts : list Toast;
  console : list (string * AxiosError);
  requests : list Request }.

(** The current location is the last history entry. *)
Definition location (w : World) : string := List.last (history w) "/".

(** Storage API. *)
Definition getItem (k : string) (ls : gmap string string) : option string := ls !! k.
Definition setItem (k v : string) (ls : gmap string string) : gmap string string := <[k := v]> ls.
Definition removeItem (k : string) (ls : gmap string string) : gmap string string := delete k ls.

(* ===================================================================== *)
(** ** A state-and-exception monad for handlers *)
(* ===================================================================== *)

Inductive Completion (A : Type) :=
| Normal (a : A)
| Throw (e : AxiosError).
Arguments Normal {A} _.
Arguments Throw {A} _.

(** A handler of a component with hooks [C]. *)
Definition M (C A : Type) : Type := World -> C -> Completion A * World * C.

Definition ret {C A} (a : A) : M C A := fun w c => (Normal a, w, c).

Definition bind {C A B} (m : M C A) (k : A -> M C B) : M C B :=
  fun w c =>
    match m w c with
    | (Normal a, w', c') => k a w' c'
    | (Throw e, w', c') => (Throw e, w', c')
    end.

Definition throw {C A} (e : AxiosError) : M C A := fun w c => (Throw e, w, c).

#[global] Instance M_ret {C} : MRet (M C) := fun A => @ret C A.
#[global] Instance M_bind {C} : MBind (M C) := fun A B k m => @bind C A B m k.

(** [try { body } catch (error) { handler } finally { fin }] *)
Definition try_catch_finally {C A} (body : M C A) (handler : AxiosError -> M C A)
    (fin : M C unit) : M C A :=
  fun w c =>
    let '(r, w1, c1) :=
      match body w c with
      | (Normal a, w', c') => (Normal a, w', c')
      | (Throw e, w', c') => handler e w' c'
      end in
    match fin w1 c1 with
    | (Normal _, w2, c2) => (r, w2, c2)
    | (Throw e, w2, c2) => (Throw e, w2, c2)
    end.

(** [await p] *)
Definition await {C T} (p : Promise T) : M C T :=
  match outcome p with
  | Fulfilled v => ret v
  | Rejected e => throw e
  end.

(** Final world and hooks of a handler run. *)
Definition run {C A} (m : M C A) (w : World) (c : C) : World * C :=
  let '(_, w', c') := m w c in (w', c').

Definition completion {C A} (m : M C A) (w : World) (c : C) : Completion A :=
  let '(r, _, _) := m w c in r.

Section WorldOps.
Context {C : Type}.

Definition modify_world (f : World -> World) : M C unit := fun w c => (Normal tt, f w, c).

Definition modify_hooks (f : C -> C) : M C unit := fun w c => (Normal tt, w, f c).

(** The hook values a handler closes over. *)
Definition read_hooks : M C C := fun w c => (Normal c, w, c).

(** [e.preventDefault()] has no effect on the modelled world. *)
Definition preventDefault : M C unit := ret tt.

Definition localStorage_getItem (k : string) : M C (option string) :=
  fun w c => (Normal (getItem k (localStorage w)), w, c).

Definition localStorage_setItem (k v : string) : M C unit :=
  modify_world (fun w => mkWorld (setItem k v (localStorage w)) (isAuthenticated w)
                           (history w) (toasts w) (console w) (requests w)).

Definition localStorage_removeItem (k : string) : M C unit :=
  modify_world (fun w => mkWorld (removeItem k (localStorage w)) (isAuthenticated w)
                           (history w) (toasts w) (console w) (requests w)).

Definition setIsAuthenticated (b : bool) : M C unit :=
  modify_world (fun w => mkWorld (localStorage w) b
                           (history w) (toasts w) (console w) (requests w)).

Definition navigate (path : string) : M C unit :=
  modify_world (fun w => mkWorld (localStorage w) (isAuthenticated w)
                           (history w ++ [path]) (toasts w) (console w) (requests w)).

Definition toast (t : Toast) : M C unit :=
  modify_world (fun w => mkWorld (localStorage w) (isAuthenticated w)
                           (history w) (toasts w ++ [t]) (console w) (requests w)).

Definition toast_success (msg : string) : M C unit := toast (toast_Success msg).
Definition toast_error (msg : string) : M C unit := toast (toast_Error msg).

Definition console_error (label : string) (error : AxiosError) : M C unit :=
  modify_world (fun w => mkWorld (localStorage w) (isAuthenticated w)
                           (history w) (toasts w) (console w ++ [(label, error)]) (requests w)).

(** Issuing a request records it; the promise it returns is the backend's
    answer [reply]. *)
Definition axios_request {T} (rq : Request) (reply : Promise T) : M C (Promise T) :=
  fun w c => (Normal reply,
              mkWorld (localStorage w) (isAuthenticated w)
                (history w) (toasts w) (console w) (requests w ++ [rq]), c).

Definition axios_get {T} (u : string) (hs : list (string * string)) (reply : Promise T)
  : M C (Promise T) :=
  axios_request (mkRequest GET u hs NoBody) reply.

Definition axios_post {T} (u : string) (b : Body) (hs : list (string * string))
    (reply : Promise T) : M C (Promise T) :=
  axios_request (mkRequest POST u hs b) reply.

End WorldOps.

(** [a || n] where [a] is a string or [undefined] and [n] a number. *)
Definition or_number (v : option string) (n : Z) : Rendered :=
  match v with
  | Some s => if truthy v then RString s else RNumber n
  | None => RNumber n
  end.

(** [`Bearer ${token}`] as the only header of [config]. *)
Definition bearer (token : option string) : list (string * string) :=
  [("Authorization", "Bearer " +:+ ToString token)].

(* ===================================================================== *)
(** ** App.js: the route table and its guard *)
(* ===================================================================== *)

Module App.

Inductive Element :=
| LandingPage
| AuthPage
| Dashboard
| AnalysisPage (id : string)
| ProgressPage
| Navigate (to : string).

(** [function PrivateRoute({ children })] *)
Definition PrivateRoute (ls : gmap string string) (children : Element) : Element :=
  let token := getItem "token" ls in
  if truthy token then children else Navigate "/auth".

(** The five [<Route path=...>] entries. *)
Inductive Route :=
| path_root
| path_auth
| path_dashboard
| path_analysis (id : string)
| path_progress.

(** The [element] of each entry, for the current hook and storage. *)
Definition element (w : World) (r : Route) : Element :=
  match r with
  | path_root => if isAuthenticated w then Navigate "/dashboard" else LandingPage
  | path_auth => AuthPage
  | path_dashboard => PrivateRoute (localStorage w) Dashboard
  | path_analysis id => PrivateRoute (localStorage w) (AnalysisPage id)
  | path_progress => PrivateRoute (localStorage w) ProgressPage
  end.

(** The routes wrapped in [<PrivateRoute>], with the child they wrap. *)
Definition protected_child (r : Route) : option Element :=
  match r with
  | path_dashboard => Some Dashboard
  | path_analysis id => Some (AnalysisPage id)
  | path_progress => Some ProgressPage
  | path_root | path_auth => None
  end.

(** A [:id] segment: not empty and without a slash. *)
Fixpoint no_slash (s : string) : bool :=
  match s with
  | EmptyString => true
  | String c s' => negb (Ascii.eqb c "/") && no_slash s'
  end.

Definition segment (s : string) : bool := negb (String.eqb s "") && no_slash s.

(** Matching a pathname against the route table (exact pathnames, as the
    client itself navigates to them). *)
Definition matchPath (path : string) : option Route :=
  if String.eqb path "/" then Some path_root
  else if String.eqb path "/auth" then Some path_auth
  else if String.eqb path "/dashboard" then Some path_dashboard
  else if String.eqb path "/progress" then Some path_progress
  else if String.prefix "/analysis/" path
          && segment (String.substring 10 (String.length path - 10) path)
       then Some (path_analysis (String.substring 10 (String.length path - 10) path))
  else None.

(** [<Routes>]: the element of the entry matching the current location. *)
Definition Routes (w : World) : option Element :=
  element w <$> matchPath (location w).

(** Rendering [<Navigate to=...>] pushes [to] on the history. *)
Definition push (to : string) (w : World) : World :=
  mkWorld (localStorage w) (isAuthenticated w) (history w ++ [to])
    (toasts w) (console w) (requests w).

(** What the router shows once redirects are followed, at most [fuel] of
    them; a [Navigate] result means a redirect is still pending. *)
Fixpoint render (fuel : nat) (w : World) : option Element :=
  match Routes w with
  | Some (Navigate to) =>
      match fuel with
      | O => Some (Navigate to)
      | S n => render n (push to w)
      end
  | shown => shown
  end.

(** The mount effect of [App]: [setIsAuthenticated(!!token)]. *)
Definition mount {C} : M C unit :=
  token ← localStorage_getItem "token";
  setIsAuthenticated (truthy token).

(** The [onAuthSuccess] callback handed to [AuthPage]. *)
Definition onAuthSuccess {C} : M C unit := setIsAuthenticated true.

End App.

(* ===================================================================== *)
(** ** Dashboard *)
(* ===================================================================== *)

Module Dashboard.

Record Hooks := mkHooks {
  user : option User;
  analyses : list Analysis;
  stats : option ProgressStats;
  uploading : bool;
  loading : bool }.

(** The [useState] initial values. *)
Definition init : Hooks := mkHooks None [] None false true.

Definition setUser (v : option User) : M Hooks unit :=
  modify_hooks (fun h => mkHooks v (analyses h) (stats h) (uploading h) (loading h)).
Definition setAnalyses (v : list Analysis) : M Hooks unit :=
  modify_hooks (fun h => mkHooks (user h) v (stats h) (uploading h) (loading h)).
Definition setStats (v : option ProgressStats) : M Hooks unit :=
  modify_hooks (fun h => mkHooks (user h) (analyses h) v (uploading h) (loading h)).
Definition setUploading (v : bool) : M Hooks unit :=
  modify_hooks (fun h => mkHooks (user h) (analyses h) (stats h) v (loading h)).
Definition setLoading (v : bool) : M Hooks unit :=
  modify_hooks (fun h => mkHooks (user h) (analyses h) (stats h) (uploading h) v).

Definition handleLogout : M Hooks unit :=
  localStorage_removeItem "token";;
  localStorage_removeItem "user";;
  navigate "/".

Section Handlers.
Variable BACKEND_URL : string.

Definition API : string := BACKEND_URL +:+ "/api".

Definition loadData
    (me : Promise (AxiosResponse User))
    (hist : Promise (AxiosResponse (list Analysis)))
    (st : Promise (AxiosResponse ProgressStats)) : M Hooks unit :=
  try_catch_finally
    (token ← localStorage_getItem "token";
     let config := bearer token in
     p1 ← axios_get (API +:+ "/auth/me") config me;
     p2 ← axios_get (API +:+ "/analysis/history") config hist;
     p3 ← axios_get (API +:+ "/progress/stats") config st;
     '(userRes, analysesRes, statsRes) ← await (Promise_all3 p1 p2 p3);
     setUser (Some (data userRes));;
     setAnalyses (data analysesRes);;
     setStats (Some (data statsRes)))
    (fun error =>
       console_error "Error loading data:" error;;
       if status_is error 401 then handleLogout else mret tt)
    (setLoading false).

Definition handleFileUpload (e : ChangeEvent)
    (reply : Promise (AxiosResponse Analysis)) : M Hooks unit :=
  match files e !! 0%nat with
  | None => mret tt
  | Some file =>
      if negb (String.prefix "image/" (type file))
      then toast_error "Please upload an image file"
      else
        setUploading true;;
        let formData := [("file", file)] in
        try_catch_finally
          (token ← localStorage_getItem "token";
           p ← axios_post (API +:+ "/analysis/upload") (FormData formData)
                 (bearer token ++ [("Content-Type", "multipart/form-data")]) reply;
           response ← await p;
           toast_success "Analysis complete!";;
           navigate ("/analysis/" +:+ analysis_id (data response)))
          (fun error =>
             console_error "Upload error:" error;;
             toast_error (or_else (response_detail error) "Upload failed"))
          (setUploading false)
  end.

End Handlers.

(** The rendered page, without layout and date formatting. *)
Record Card := mkCard {
  card_id : string;
  card_score : Rendered;
  card_weak_areas : option string }.

Inductive Recent :=
| NoAnalysesYet
| Cards (cs : list Card).

Inductive View :=
| Loading
| Page (user_name : option string) (total streak : Z)
       (improvement_sign : string) (improvement : Q)
       (upload_disabled : bool) (recent : Recent).

Section Render.
Variable Number_toString : Q -> string.

(** [{analysis.progress_score?.toFixed(0) || 50}] *)
Definition card_progress_score (analysis : Analysis) : Rendered :=
  or_number (toFixed0 Number_toString <$> progress_score analysis) 50.

Definition card (analysis : Analysis) : Card :=
  mkCard (analysis_id analysis) (card_progress_score analysis)
    match weak_areas analysis with
    | Some (a :: l) => Some (String.concat ", " (take 2 (a :: l)))
    | _ => None
    end.

Definition render (h : Hooks) : View :=
  if loading h then Loading
  else
    Page (name <$> user h)
      (from_option total_analyses 0%Z (stats h))
      (from_option current_streak 0%Z (stats h))
      (match stats h with
       | Some s => if Qlt_le_dec 0 (improvement_percentage s) then "+" else ""
       | None => ""
       end)
      (from_option improvement_percentage 0%Q (stats h))
      (uploading h)
      (match analyses h with
       | [] => NoAnalysesYet
       | l => Cards (card <$> take 6 l)
       end).

End Render.


(** [onClick={() => navigate(`/analysis/${analysis.id}`)}] of a card. *)
Definition openAnalysis (analysis : Analysis) : M Hooks unit :=
  navigate ("/analysis/" +:+ analysis_id analysis).

End Dashboard.

(* ===================================================================== *)
(** ** ProgressPage *)
(* ===================================================================== *)

Module ProgressPage.

Record Hooks := mkHooks {
  analyses : list Analysis;
  stats : option ProgressStats;
  loading : bool }.

Definition init : Hooks := mkHooks [] None true.

Definition setAnalyses (v : list Analysis) : M Hooks unit :=
  modify_hooks (fun h => mkHooks v (stats h) (loading h)).
Definition setStats (v : option ProgressStats) : M Hooks unit :=
  modify_hooks (fun h => mkHooks (analyses h) v (loading h)).
Definition setLoading (v : bool) : M Hooks unit :=
  modify_hooks (fun h => mkHooks (analyses h) (stats h) v).

Section Handlers.
Variable BACKEND_URL : string.

Definition API : string := BACKEND_URL +:+ "/api".

Definition loadProgress
    (hist : Promise (AxiosResponse (list Analysis)))
    (st : Promise (AxiosResponse ProgressStats)) : M Hooks unit :=
  try_catch_finally
    (token ← localStorage_getItem "token";
     let config := bearer token in
     p1 ← axios_get (API +:+ "/analysis/history") config hist;
     p2 ← axios_get (API +:+ "/progress/stats") config st;
     '(analysesRes, statsRes) ← await (Promise_all2 p1 p2);
     setAnalyses (data analysesRes);;
     setStats (Some (data statsRes)))
    (fun error => console_error "Error loading progress:" error)
    (setLoading false).

End Handlers.

Record TimelineItem := mkItem {
  item_id : string;
  item_index : nat;
  item_score : Rendered;
  item_focus : option string }.

Inductive View :=
| Loading
| NoProgressData
| Page (total streak : Z) (chart_scores : list Q) (timeline : list TimelineItem).

Section Render.
Variable Number_toString : Q -> string.

(** [{analysis.progress_score?.toFixed(0) || 50}] in a timeline entry. *)
Definition timeline_progress_score (analysis : Analysis) : Rendered :=
  or_number (toFixed0 Number_toString <$> progress_score analysis) 50.

(** [score: a.progress_score || 50] of the chart data (zero is falsy). *)
Definition chart_score (a : Analysis) : Q :=
  match progress_score a with
  | Some x => if Qeq_bool x 0 then 50%Q else x
  | None => 50%Q
  end.

Definition timeline_item (index : nat) (analysis : Analysis) : TimelineItem :=
  mkItem (analysis_id analysis) (index + 1) (timeline_progress_score analysis)
    match weak_areas analysis with
    | Some (a :: l) => Some (String.concat ", " (take 3 (a :: l)))
    | _ => None
    end.

Definition render (h : Hooks) : View :=
  if loading h then Loading
  else
    match analyses h with
    | [] => NoProgressData
    | l =>
        Page (from_option total_analyses 0%Z (stats h))
          (from_option current_streak 0%Z (stats h))
          (chart_score <$> l)
          (imap timeline_item l)
    end.

End Render.

Record ChartPoint := mkPoint {
  point_date : string;
  point_score : Q;
  point_index : nat }.

(** [level === 'strong' ? 100 : level === 'moderate' ? 66 : 33] *)
Definition level_value (level : string) : Z :=
  if String.eqb level "strong" then 100
  else if String.eqb level "moderate" then 66
  else 33.

(** [s.charAt(0)] and [s.slice(1)]. *)
Definition charAt0 (s : string) : string :=
  match s with
  | EmptyString => ""
  | String c _ => String c ""
  end.

Definition slice1 (s : string) : string :=
  match s with
  | EmptyString => ""
  | String _ rest => rest
  end.

Section Charts.
(** [Date.prototype.toLocaleDateString] and [String.prototype.toUpperCase]
    of the runtime. *)
Variable toLocaleDateString : string -> string.
Variable toUpperCase : string -> string.

(** [const progressChartData = analyses.map((a, index) => ...)] *)
Definition progressChartData (h : Hooks) : list ChartPoint :=
  imap (fun index a =>
          mkPoint (toLocaleDateString (analysis_date a)) (chart_score a) (index + 1))
       (analyses h).

(** [const muscleData = stats?.muscle_development ? Object.entries(...).map(...) : []] *)
Definition muscleData (h : Hooks) : list (string * Z) :=
  match stats h with
  | Some s =>
      (fun entry : string * string =>
         (toUpperCase (charAt0 entry.1) +:+ slice1 entry.1, level_value entry.2))
        <$> muscle_development s
  | None => []
  end.


End Charts.

(** [onClick={() => navigate('/dashboard')}] of the back button and
    [onClick={() => navigate(`/analysis/${analysis.id}`)}] of an entry. *)
Definition backToDashboard : M Hooks unit := navigate "/dashboard".

Definition openAnalysis (analysis : Analysis) : M Hooks unit :=
  navigate ("/analysis/" +:+ analysis_id analysis).

End ProgressPage.

(* ===================================================================== *)
(** ** AnalysisPage *)
(* ===================================================================== *)

Module AnalysisPage.

Record Hooks := mkHooks {
  analysis : option Analysis;
  loading : bool }.

Definition init : Hooks := mkHooks None true.

Definition setAnalysis (v : option Analysis) : M Hooks unit :=
  modify_hooks (fun h => mkHooks v (loading h)).
Definition setLoading (v : bool) : M Hooks unit :=
  modify_hooks (fun h => mkHooks (analysis h) v).

Section Handlers.
Variable BACKEND_URL : string.

Definition API : string := BACKEND_URL +:+ "/api".

Definition loadAnalysis (id : string)
    (reply : Promise (AxiosResponse Analysis)) : M Hooks unit :=
  try_catch_finally
    (token ← localStorage_getItem "token";
     p ← axios_get (API +:+ "/analysis/" +:+ id) (bearer token) reply;
     response ← await p;
     setAnalysis (Some (data response)))
    (fun error => console_error "Error loading analysis:" error)
    (setLoading false).

End Handlers.

Inductive View :=
| Loading
| NotFound
| Detail (score : Rendered) (assessment : option string)
         (muscles : list (string * string)) (focus recs : list string).

Section Render.
Variable Number_toString : Q -> string.

(** [{analysis.progress_score?.toFixed(0) || 50}] of the score card. *)
Definition progress_score_card (analysis : Analysis) : Rendered :=
  or_number (toFixed0 Number_toString <$> progress_score analysis) 50.

Definition render (h : Hooks) : View :=
  if loading h then Loading
  else
    match analysis h with
    | None => NotFound
    | Some a =>
        Detail (progress_score_card a)
          (if truthy (overall_assessment a) then overall_assessment a else None)
          (muscle_groups a)
          (default [] (weak_areas a))
          (default [] (recommendations a))
    end.

End Render.


Definition backToDashboard : M Hooks unit := navigate "/dashboard".

End AnalysisPage.

(* ===================================================================== *)
(** ** AuthPage *)
(* ===================================================================== *)

Module AuthPage.

Record Form := mkForm {
  form_email : string;
  form_password : string;
  form_name : string }.

Record Hooks := mkHooks {
  isLogin : bool;
  formData : Form;
  loading : bool }.

Definition init : Hooks := mkHooks true (mkForm "" "" "") false.

Definition setIsLogin (v : bool) : M Hooks unit :=
  modify_hooks (fun h => mkHooks v (formData h) (loading h)).
Definition setFormData (v : Form) : M Hooks unit :=
  modify_hooks (fun h => mkHooks (isLogin h) v (loading h)).
Definition setLoading (v : bool) : M Hooks unit :=
  modify_hooks (fun h => mkHooks (isLogin h) (formData h) v).

Section Handlers.
Variable BACKEND_URL : string.
Variable JSON_stringify : User -> string.

Definition API : string := BACKEND_URL +:+ "/api".

Definition handleSubmit (onAuthSuccess : M Hooks unit)
    (reply : Promise (AxiosResponse AuthData)) : M Hooks unit :=
  h ← read_hooks;
  preventDefault;;
  setLoading true;;
  try_catch_finally
    (let endpoint := if isLogin h then "/auth/login" else "/auth/register" in
     let payload :=
       if isLogin h
       then JsonBody [("email", form_email (formData h));
                      ("password", form_password (formData h))]
       else JsonBody [("email", form_email (formData h));
                      ("password", form_password (formData h));
                      ("name", form_name (formData h))] in
     p ← axios_post (API +:+ endpoint) payload [] reply;
     response ← await p;
     localStorage_setItem "token" (token (data response));;
     localStorage_setItem "user" (JSON_stringify (user (data response)));;
     toast_success (if isLogin h then "Welcome back!" else "Account created successfully!");;
     onAuthSuccess;;
     navigate "/dashboard")
    (fun error =>
       console_error "Auth error:" error;;
       toast_error (or_else (response_detail error) "Authentication failed"))
    (setLoading false).

End Handlers.

(** [onClick={() => setIsLogin(!isLogin)}] *)
Definition toggleAuthMode : M Hooks unit :=
  h ← read_hooks;
  setIsLogin (negb (isLogin h)).

(** [onChange={(e) => setFormData({ ...formData, name: e.target.value })}]
    and its two siblings. *)
Definition onChangeName (value : string) : M Hooks unit :=
  h ← read_hooks;
  setFormData (mkForm (form_email (formData h)) (form_password (formData h)) value).

Definition onChangeEmail (value : string) : M Hooks unit :=
  h ← read_hooks;
  setFormData (mkForm value (form_password (formData h)) (form_name (formData h))).

Definition onChangePassword (value : string) : M Hooks unit :=
  h ← read_hooks;
  setFormData (mkForm (form_email (formData h)) value (form_name (formData h))).

(** The JSON body [handleSubmit] posts for the hooks [h]. *)
Definition payload (h : Hooks) : Body :=
  if isLogin h
  then JsonBody [("email", form_email (formData h));
                 ("password", form_password (formData h))]
  else JsonBody [("email", form_email (formData h));
                 ("password", form_password (formData h));
                 ("name", form_name (formData h))].

End AuthPage.

(* ===================================================================== *)
(** ** LandingPage *)
(* ===================================================================== *)

Module LandingPage.


End LandingPage.

(* ===================================================================== *)
(** ** Every operation that can touch the session *)
(* ===================================================================== *)

(** The handlers of the client, with the answers they receive. *)
Inductive Operation :=
| op_mount
| op_submit (h : AuthPage.Hooks) (reply : Promise (AxiosResponse AuthData))
| op_logout (h : Dashboard.Hooks)
| op_loadData (h : Dashboard.Hooks)
    (me : Promise (AxiosResponse User))
    (hist : Promise (AxiosResponse (list Analysis)))
    (st : Promise (AxiosResponse ProgressStats))
| op_upload (h : Dashboard.Hooks) (e : ChangeEvent) (reply : Promise (AxiosResponse Analysis))
| op_loadProgress (h : ProgressPage.Hooks)
    (hist : Promise (AxiosResponse (list Analysis)))
    (st : Promise (AxiosResponse ProgressStats))
| op_loadAnalysis (h : AnalysisPage.Hooks) (id : string)
    (reply : Promise (AxiosResponse Analysis)).

(** The world after an operation. *)
Definition step (BACKEND_URL : string) (JSON_stringify : User -> string)
    (op : Operation) (w : World) : World :=
  match op with
  | op_mount => (run (@App.mount unit) w tt).1
  | op_submit h reply =>
      (run (AuthPage.handleSubmit BACKEND_URL JSON_stringify App.onAuthSuccess reply) w h).1
  | op_logout h => (run Dashboard.handleLogout w h).1
  | op_loadData h me hist st => (run (Dashboard.loadData BACKEND_URL me hist st) w h).1
  | op_upload h e reply => (run (Dashboard.handleFileUpload BACKEND_URL e reply) w h).1
  | op_loadProgress h hist st => (run (ProgressPage.loadProgress BACKEND_URL hist st) w h).1
  | op_loadAnalysis h id reply => (run (AnalysisPage.loadAnalysis BACKEND_URL id reply) w h).1
  end.

(** The two keys of the session. *)
Definition session_keys : gset string := {[ "token"; "user" ]}.

(* ===================================================================== *)
(** ** Sample inputs *)
(* ===================================================================== *)

Definition ex_host : string := "http://localhost:8001".

(** A logged-in browser on the dashboard. *)
Definition ex_world : World :=
  mkWorld {[ "token" := "abc"; "user" := "{}" ]} true ["/dashboard"] [] [] [].

(** A browser without a session, on the login form. *)
Definition ex_anonymous : World := mkWorld ∅ false ["/auth"] [] [] [].

Definition ex_unauthorized : AxiosError :=
  mkError (Some (mkResponse 401 (Some (mkErrorBody (Some "Invalid token"))))).

Definition ex_server_error : AxiosError := mkError (Some (mkResponse 500 None)).

Definition ex_bad_image : AxiosError :=
  mkError (Some (mkResponse 400 (Some (mkErrorBody (Some "No person found"))))).

Definition ex_user : User := mkUser "u1" "Ana" "ana@example.com".

Definition ex_analysis : Analysis :=
  mkAnalysis "a1" "2025-01-01T10:00:00" (Some (145 # 2)%Q) [("chest", "weak")]
    (Some ["chest"]) None None None.

Definition ex_unscored : Analysis :=
  mkAnalysis "a2" "2025-01-02T10:00:00" None [] None None None None.

Definition ex_stats : ProgressStats := mkStats 1 1 0%Q [].

Definition ex_png : File := mkFile "front.png" "image/png".
Definition ex_pdf : File := mkFile "plan.pdf" "application/pdf".

Definition ex_stringify (u : User) : string :=
  "{" +:+ user_id u +:+ "," +:+ name u +:+ "," +:+ email u +:+ "}".

Definition ex_toString (x : Q) : string := "1e+21".

(** A Dashboard load in which only the stats request fails, with 500. *)
Definition ex_stats_failure : World * Dashboard.Hooks :=
  run (Dashboard.loadData ex_host
         (mkPromise 1 (Fulfilled (mkResponse 200 ex_user)))
         (mkPromise 2 (Fulfilled (mkResponse 200 [ex_analysis])))
         (mkPromise 3 (Rejected ex_server_error)))
    ex_world Dashboard.init.

(** A browser whose stored token is the empty string. *)
Definition ex_empty_token : World :=
  mkWorld {[ "token" := ""; "user" := "{}" ]} true ["/dashboard"] [] [] [].

(** An error answer whose [detail] is the empty string. *)
Definition ex_empty_detail : AxiosError :=
  mkError (Some (mkResponse 400 (Some (mkErrorBody (Some ""))))).

(** A login answered with status 200 and an empty token. *)
Definition ex_empty_login : World * AuthPage.Hooks :=
  run (AuthPage.handleSubmit ex_host ex_stringify App.onAuthSuccess
         (mkPromise 1 (Fulfilled (mkResponse 200 (mkAuthData "" ex_user)))))
    ex_anonymous AuthPage.init.

(* ===================================================================== *)
(** * Properties *)
(* ===================================================================== *)

(** Unfolding a handler down to the state transformer it denotes. *)
Ltac unfold_monad :=
  unfold run, completion, try_catch_finally, await, mbind, mret, M_bind, M_ret, bind, ret,
    throw, toast_error, toast_success, toast, console_error, navigate,
    localStorage_getItem, localStorage_setItem, localStorage_removeItem,
    setIsAuthenticated, axios_post, axios_get, axios_request, read_hooks,
    preventDefault, modify_world, modify_hooks in *.

Ltac unfold_handlers :=
  unfold Dashboard.loadData, Dashboard.handleFileUpload, Dashboard.handleLogout,
    ProgressPage.loadProgress, AnalysisPage.loadAnalysis, AuthPage.handleSubmit,
    App.onAuthSuccess, App.mount,
    Dashboard.setUser, Dashboard.setAnalyses, Dashboard.setStats,
    Dashboard.setUploading, Dashboard.setLoading,
    ProgressPage.setAnalyses, ProgressPage.setStats, ProgressPage.setLoading,
    AnalysisPage.setAnalysis, AnalysisPage.setLoading,
    AuthPage.setLoading in *.

Ltac exec := unfold_handlers; unfold_monad; cbn.

(** *** JavaScript helpers *)

Lemma truthy_true_iff (v : option string) :
  truthy v = true <-> exists s, v = Some s /\ s <> "".
Proof.
  destruct v as [s|]; simpl.
  - rewrite negb_true_iff. split.
    + intros H. exists s. split; [done|]. intros ->. discriminate.
    + intros (s' & [= <-] & Hs). by apply String.eqb_neq.
  - split; [done | by intros (s & ? & _)].
Qed.

Lemma truthy_false_iff (v : option string) :
  truthy v = false <-> v = None \/ v = Some "".
Proof.
  destruct v as [s|]; simpl.
  - rewrite negb_false_iff, String.eqb_eq. split.
    + intros ->. by right.
    + by intros [|[= ->]].
  - split; [by left | done].
Qed.

Lemma or_else_present (s d : string) : s <> "" -> or_else (Some s) d = s.
Proof.
  intros Hs. unfold or_else.
  assert (truthy (Some s) = true) as -> by (apply truthy_true_iff; eauto).
  done.
Qed.

Lemma or_else_absent (v : option string) (d : string) :
  v = None \/ v = Some "" -> or_else v d = d.
Proof. intros [-> | ->]; reflexivity. Qed.

(** *** Effects of the handlers on the world, for every answer *)

Lemma loadProgress_world url hist st w h :
  let w' := (run (ProgressPage.loadProgress url hist st) w h).1 in
  localStorage w' = localStorage w /\ history w' = history w /\
  toasts w' = toasts w /\ isAuthenticated w' = isAuthenticated w.
Proof.
  destruct hist as [t1 [r1|e1]], st as [t2 [r2|e2]]; exec;
    repeat case_match; simplify_eq; done.
Qed.

Lemma loadAnalysis_world url id reply w h :
  let w' := (run (AnalysisPage.loadAnalysis url id reply) w h).1 in
  localStorage w' = localStorage w /\ history w' = history w /\
  toasts w' = toasts w /\ isAuthenticated w' = isAuthenticated w.
Proof. destruct reply as [t [r|e]]; exec; done. Qed.

Lemma handleFileUpload_storage url e reply w h :
  let w' := (run (Dashboard.handleFileUpload url e reply) w h).1 in
  localStorage w' = localStorage w /\ isAuthenticated w' = isAuthenticated w.
Proof.
  unfold Dashboard.handleFileUpload.
  destruct (files e !! 0%nat) as [file|]; [|done].
  destruct (String.prefix "image/" (type file)); [|done].
  destruct reply as [t [r|err]]; exec; done.
Qed.

Lemma handleLogout_world w h :
  let w' := (run Dashboard.handleLogout w h).1 in
  localStorage w' = removeItem "user" (removeItem "token" (localStorage w)) /\
  history w' = history w ++ ["/"] /\ toasts w' = toasts w.
Proof. exec. done. Qed.

(** The join of the Dashboard either fulfils with the three answers or
    rejects with one of the three reasons. *)
Lemma Promise_all3_outcome {A B C} (p : Promise A) (q : Promise B) (r : Promise C) :
  match outcome (Promise_all3 p q r) with
  | Fulfilled (a, b, c) =>
      outcome p = Fulfilled a /\ outcome q = Fulfilled b /\ outcome r = Fulfilled c
  | Rejected e =>
      outcome p = Rejected e \/ outcome q = Rejected e \/ outcome r = Rejected e
  end.
Proof.
  destruct p as [t1 [a|e1]], q as [t2 [b|e2]], r as [t3 [c|e3]];
    unfold Promise_all3, Promise_all2; cbn;
    repeat (case_match; cbn in *; simplify_eq); auto.
Qed.

Lemma Promise_all2_outcome {A B} (p : Promise A) (q : Promise B) :
  match outcome (Promise_all2 p q) with
  | Fulfilled (a, b) => outcome p = Fulfilled a /\ outcome q = Fulfilled b
  | Rejected e => outcome p = Rejected e \/ outcome q = Rejected e
  end.
Proof.
  destruct p as [t1 [a|e1]], q as [t2 [b|e2]];
    unfold Promise_all2; cbn; repeat (case_match; cbn in *; simplify_eq); auto.
Qed.

Lemma Promise_all3_fulfilled {A B C} (p : Promise A) (q : Promise B) (r : Promise C) :
  fulfilled (Promise_all3 p q r) = fulfilled p && fulfilled q && fulfilled r.
Proof.
  destruct p as [t1 [a|e1]], q as [t2 [b|e2]], r as [t3 [c|e3]];
    unfold Promise_all3, Promise_all2, fulfilled; cbn;
    repeat (case_match; cbn in *; simplify_eq); done.
Qed.

Lemma Promise_all2_fulfilled {A B} (p : Promise A) (q : Promise B) :
  fulfilled (Promise_all2 p q) = fulfilled p && fulfilled q.
Proof.
  destruct p as [t1 [a|e1]], q as [t2 [b|e2]];
    unfold Promise_all2, fulfilled; cbn; repeat (case_match; cbn in *; simplify_eq); done.
Qed.

(** The Dashboard loader as a function of what its join yields. *)
Lemma loadData_fulfilled url me hist st w h r1 r2 r3 :
  outcome (Promise_all3 me hist st) = Fulfilled (r1, r2, r3) ->
  run (Dashboard.loadData url me hist st) w h =
    (mkWorld (localStorage w) (isAuthenticated w) (history w) (toasts w) (console w)
       (requests w ++
          [mkRequest GET (Dashboard.API url +:+ "/auth/me")
             (bearer (getItem "token" (localStorage w))) NoBody;
           mkRequest GET (Dashboard.API url +:+ "/analysis/history")
             (bearer (getItem "token" (localStorage w))) NoBody;
           mkRequest GET (Dashboard.API url +:+ "/progress/stats")
             (bearer (getItem "token" (localStorage w))) NoBody]),
     Dashboard.mkHooks (Some (data r1)) (data r2) (Some (data r3))
       (Dashboard.uploading h) false).
Proof.
  intros Hj. unfold_handlers; unfold_monad. rewrite Hj. cbn.
  by rewrite <- !app_assoc.
Qed.

Lemma loadData_rejected url me hist st w h err :
  outcome (Promise_all3 me hist st) = Rejected err ->
  run (Dashboard.loadData url me hist st) w h =
    (mkWorld
       (if status_is err 401
        then removeItem "user" (removeItem "token" (localStorage w))
        else localStorage w)
       (isAuthenticated w)
       (if status_is err 401 then history w ++ ["/"] else history w)
       (toasts w)
       (console w ++ [("Error loading data:", err)])
       (requests w ++
          [mkRequest GET (Dashboard.API url +:+ "/auth/me")
             (bearer (getItem "token" (localStorage w))) NoBody;
           mkRequest GET (Dashboard.API url +:+ "/analysis/history")
             (bearer (getItem "token" (localStorage w))) NoBody;
           mkRequest GET (Dashboard.API url +:+ "/progress/stats")
             (bearer (getItem "token" (localStorage w))) NoBody]),
     Dashboard.mkHooks (Dashboard.user h) (Dashboard.analyses h) (Dashboard.stats h)
       (Dashboard.uploading h) false).
Proof.
  intros Hj. unfold_handlers; unfold_monad. rewrite Hj. cbn.
  destruct (status_is err 401); cbn; by rewrite <- !app_assoc.
Qed.

(** An authorization failure surfaced by the Dashboard's join logs the
    user out: both keys are removed and the router goes to ["/"]. *)
Lemma loadData_unauthorized url me hist st w h err :
  outcome (Promise_all3 me hist st) = Rejected err ->
  status_is err 401 = true ->
  let w' := (run (Dashboard.loadData url me hist st) w h).1 in
  getItem "token" (localStorage w') = None /\
  getItem "user" (localStorage w') = None /\
  location w' = "/".
Proof.
  intros Hj H401. rewrite (loadData_rejected _ _ _ _ _ _ _ Hj), H401. cbn.
  unfold getItem, removeItem, location. cbn.
  rewrite lookup_delete_ne, !lookup_delete_eq by done.
  by rewrite last_last.
Qed.

(** The join surfaces the rejection that settles first: a 401 on the
    stats request that settles after a 500 on the user request does not
    reach the catch block, and the session stays. *)
Lemma loadData_late_unauthorized_unseen :
  localStorage
    (run (Dashboard.loadData ex_host
            (mkPromise 1 (Rejected ex_server_error))
            (mkPromise 2 (Fulfilled (mkResponse 200 [ex_analysis])))
            (mkPromise 3 (Rejected ex_unauthorized)))
       ex_world Dashboard.init).1 = localStorage ex_world /\
  localStorage
    (run (Dashboard.loadData ex_host
            (mkPromise 3 (Rejected ex_server_error))
            (mkPromise 2 (Fulfilled (mkResponse 200 [ex_analysis])))
            (mkPromise 1 (Rejected ex_unauthorized)))
       ex_world Dashboard.init).1 = ∅.
Proof. split; reflexivity. Qed.

Lemma loadData_storage url me hist st w h :
  let w' := (run (Dashboard.loadData url me hist st) w h).1 in
  (localStorage w' = localStorage w \/
   localStorage w' = removeItem "user" (removeItem "token" (localStorage w))) /\
  isAuthenticated w' = isAuthenticated w.
Proof.
  cbn zeta.
  pose proof (Promise_all3_outcome me hist st) as Hj.
  destruct (outcome (Promise_all3 me hist st)) as [[[r1 r2] r3]|err] eqn:E.
  - rewrite (loadData_fulfilled _ _ _ _ _ _ _ _ _ E). cbn. auto.
  - rewrite (loadData_rejected _ _ _ _ _ _ _ E). cbn.
    destruct (status_is err 401); auto.
Qed.

(** The upload handler as a function of the answer, for an image file. *)
Lemma handleFileUpload_accepted url e file reply w h :
  files e !! 0%nat = Some file ->
  String.prefix "image/" (type file) = true ->
  run (Dashboard.handleFileUpload url e reply) w h =
    (mkWorld (localStorage w) (isAuthenticated w)
       match outcome reply with
       | Fulfilled response => history w ++ ["/analysis/" +:+ analysis_id (data response)]
       | Rejected _ => history w
       end
       match outcome reply with
       | Fulfilled _ => toasts w ++ [toast_Success "Analysis complete!"]
       | Rejected error =>
           toasts w ++ [toast_Error (or_else (response_detail error) "Upload failed")]
       end
       match outcome reply with
       | Fulfilled _ => console w
       | Rejected error => console w ++ [("Upload error:", error)]
       end
       (requests w ++
          [mkRequest POST (Dashboard.API url +:+ "/analysis/upload")
             (bearer (getItem "token" (localStorage w)) ++
              [("Content-Type", "multipart/form-data")])
             (FormData [("file", file)])]),
     Dashboard.mkHooks (Dashboard.user h) (Dashboard.analyses h) (Dashboard.stats h)
       false (Dashboard.loading h)).
Proof.
  intros Hf Hty. unfold Dashboard.handleFileUpload. rewrite Hf, Hty. cbn.
  destruct reply as [t [r|err]]; exec; done.
Qed.

(** *** The upload flow *)

(** C9. A change event without a file makes the upload handler return at
    once: no request, no message, hooks and world untouched. *)
Theorem upload_without_file url (e : ChangeEvent) reply w h :
  files e = [] ->
  run (Dashboard.handleFileUpload url e reply) w h = (w, h) /\
  completion (Dashboard.handleFileUpload url e reply) w h = Normal tt.
Proof.
  intros He. unfold Dashboard.handleFileUpload. rewrite He. done.
Qed.

Lemma upload_without_file_witness :
  files (mkChange []) = [] /\
  run (Dashboard.handleFileUpload ex_host (mkChange []) (mkPromise 1 (Rejected ex_server_error)))
    ex_world Dashboard.init = (ex_world, Dashboard.init).
Proof.
  split; [reflexivity|].
  exact (proj1 (upload_without_file ex_host (mkChange [])
                  (mkPromise 1 (Rejected ex_server_error)) ex_world Dashboard.init eq_refl)).
Defined.

(** C5. A selected file whose declared type does not start with
    ["image/"] is rejected before any request: the only effect is the
    validation toast; the request log, the session, the router and every
    hook (the in-flight flag included) stay as they were. *)
Theorem non_image_file_rejected url (e : ChangeEvent) file reply w h :
  files e !! 0%nat = Some file ->
  String.prefix "image/" (type file) = false ->
  let w' := (run (Dashboard.handleFileUpload url e reply) w h).1 in
  let h' := (run (Dashboard.handleFileUpload url e reply) w h).2 in
  requests w' = requests w /\
  toasts w' = toasts w ++ [toast_Error "Please upload an image file"] /\
  h' = h /\
  localStorage w' = localStorage w /\
  history w' = history w /\
  isAuthenticated w' = isAuthenticated w /\
  console w' = console w.
Proof.
  intros Hf Hty. unfold Dashboard.handleFileUpload. rewrite Hf, Hty. exec. done.
Qed.

Lemma non_image_file_rejected_witness :
  files (mkChange [ex_pdf]) !! 0%nat = Some ex_pdf /\
  String.prefix "image/" (type ex_pdf) = false /\
  requests (run (Dashboard.handleFileUpload ex_host (mkChange [ex_pdf])
                   (mkPromise 1 (Fulfilled (mkResponse 200 ex_analysis))))
              ex_world Dashboard.init).1 = [].
Proof.
  split; [reflexivity|]. split; [reflexivity|].
  exact (proj1 (non_image_file_rejected ex_host (mkChange [ex_pdf]) ex_pdf
                  (mkPromise 1 (Fulfilled (mkResponse 200 ex_analysis)))
                  ex_world Dashboard.init eq_refl eq_refl)).
Defined.

(** An upload rejected with [detail: ""]: the server did send a detail,
    and the toast shows the generic message instead of it. *)
Lemma upload_empty_detail_shows_generic :
  response_detail ex_empty_detail = Some "" /\
  toasts (run (Dashboard.handleFileUpload ex_host (mkChange [ex_png])
                 (mkPromise 1 (Rejected ex_empty_detail))) ex_world Dashboard.init).1
    = [toast_Error "Upload failed"].
Proof. split; reflexivity. Qed.

(** C4, as the code has it.  For an accepted (image) file: a fulfilled
    answer navigates to [/analysis/{id}] of the returned analysis; a
    rejected one does not navigate and toasts the server's [detail] when
    it is a non-empty string, the generic ["Upload failed"] when it is
    missing or empty; the session is left alone whatever the failure; the
    in-flight flag ends [false] on both paths. *)
Theorem upload_then_navigate url (e : ChangeEvent) file reply w h :
  files e !! 0%nat = Some file ->
  String.prefix "image/" (type file) = true ->
  let w' := (run (Dashboard.handleFileUpload url e reply) w h).1 in
  let h' := (run (Dashboard.handleFileUpload url e reply) w h).2 in
  Dashboard.uploading h' = false /\
  localStorage w' = localStorage w /\
  (forall response, outcome reply = Fulfilled response ->
     history w' = history w ++ ["/analysis/" +:+ analysis_id (data response)] /\
     location w' = "/analysis/" +:+ analysis_id (data response)) /\
  (forall error, outcome reply = Rejected error ->
     history w' = history w /\
     (forall m, response_detail error = Some m -> m <> "" ->
        toasts w' = toasts w ++ [toast_Error m]) /\
     (response_detail error = None \/ response_detail error = Some "" ->
        toasts w' = toasts w ++ [toast_Error "Upload failed"])).
Proof.
  intros Hf Hty. cbn zeta.
  rewrite (handleFileUpload_accepted _ _ _ _ _ _ Hf Hty). cbn.
  split; [done|]. split; [done|]. split.
  - intros response ->. unfold location. cbn. by rewrite last_last.
  - intros error ->. split; [done|]. split.
    + intros m -> Hm. by rewrite or_else_present.
    + intros Hd. by rewrite or_else_absent.
Qed.

Lemma upload_then_navigate_witness :
  files (mkChange [ex_png]) !! 0%nat = Some ex_png /\
  String.prefix "image/" (type ex_png) = true /\
  Dashboard.uploading
    (run (Dashboard.handleFileUpload ex_host (mkChange [ex_png])
            (mkPromise 1 (Rejected ex_bad_image))) ex_world Dashboard.init).2 = false.
Proof.
  split; [reflexivity|]. split; [reflexivity|].
  exact (proj1 (upload_then_navigate ex_host (mkChange [ex_png]) ex_png
                  (mkPromise 1 (Rejected ex_bad_image))
                  ex_world Dashboard.init eq_refl eq_refl)).
Defined.

(** *** Authorization failures *)

(** C1. An answer with status 401 logs the user out only in the
    Dashboard's loader.  The Progress loader, the Analysis loader and the
    upload handler receive the same failure and leave both the stored
    session and the router where they were. *)
Theorem unauthorized_outside_dashboard_load_keeps_session
    url w hp ha hd id t1 t2 t3 t4 (b : option ErrorBody) fname :
  let err := mkError (Some (mkResponse 401 b)) in
  let w1 := (run (ProgressPage.loadProgress url
                    (mkPromise t1 (Rejected err)) (mkPromise t2 (Rejected err))) w hp).1 in
  let w2 := (run (AnalysisPage.loadAnalysis url id (mkPromise t3 (Rejected err))) w ha).1 in
  let w3 := (run (Dashboard.handleFileUpload url (mkChange [mkFile fname "image/png"])
                    (mkPromise t4 (Rejected err))) w hd).1 in
  status_is err 401 = true /\
  (localStorage w1 = localStorage w /\ history w1 = history w) /\
  (localStorage w2 = localStorage w /\ history w2 = history w) /\
  (localStorage w3 = localStorage w /\ history w3 = history w).
Proof.
  cbn zeta. split; [reflexivity|].
  split; [|split].
  - pose proof (loadProgress_world url (mkPromise t1 (Rejected (mkError (Some (mkResponse 401 b)))))
                  (mkPromise t2 (Rejected (mkError (Some (mkResponse 401 b))))) w hp) as H.
    cbn zeta in H. tauto.
  - pose proof (loadAnalysis_world url id
                  (mkPromise t3 (Rejected (mkError (Some (mkResponse 401 b))))) w ha) as H.
    cbn zeta in H. tauto.
  - rewrite (handleFileUpload_accepted url (mkChange [mkFile fname "image/png"])
               (mkFile fname "image/png")) by reflexivity.
    done.
Qed.

(** *** The joined loaders *)

Lemma loadProgress_fulfilled url hist st w h r1 r2 :
  outcome (Promise_all2 hist st) = Fulfilled (r1, r2) ->
  (run (ProgressPage.loadProgress url hist st) w h).2 =
    ProgressPage.mkHooks (data r1) (Some (data r2)) false.
Proof. intros Hj. unfold_handlers; unfold_monad. rewrite Hj. done. Qed.

Lemma loadProgress_rejected url hist st w h err :
  outcome (Promise_all2 hist st) = Rejected err ->
  (run (ProgressPage.loadProgress url hist st) w h).2 =
    ProgressPage.mkHooks (ProgressPage.analyses h) (ProgressPage.stats h) false.
Proof. intros Hj. unfold_handlers; unfold_monad. rewrite Hj. done. Qed.

Lemma not_fulfilled_rejected {T} (p : Promise T) :
  fulfilled p = false -> exists err, outcome p = Rejected err.
Proof. unfold fulfilled. destruct (outcome p); [done | eauto]. Qed.

(** C3. The Dashboard joins its three reads and the Progress page its two
    reads all-or-nothing: when one of the joined answers is a rejection
    none of the fetched fields is set, and the fields are set (to the
    answers' bodies) when every answer is fulfilled. *)
Theorem loaders_join_all_or_nothing url me hist st w hd hp :
  let hd' := (run (Dashboard.loadData url me hist st) w hd).2 in
  let hp' := (run (ProgressPage.loadProgress url hist st) w hp).2 in
  (fulfilled me && fulfilled hist && fulfilled st = false ->
     Dashboard.user hd' = Dashboard.user hd /\
     Dashboard.analyses hd' = Dashboard.analyses hd /\
     Dashboard.stats hd' = Dashboard.stats hd) /\
  (forall r1 r2 r3,
     outcome me = Fulfilled r1 -> outcome hist = Fulfilled r2 -> outcome st = Fulfilled r3 ->
     Dashboard.user hd' = Some (data r1) /\
     Dashboard.analyses hd' = data r2 /\
     Dashboard.stats hd' = Some (data r3)) /\
  (fulfilled hist && fulfilled st = false ->
     ProgressPage.analyses hp' = ProgressPage.analyses hp /\
     ProgressPage.stats hp' = ProgressPage.stats hp) /\
  (forall r2 r3,
     outcome hist = Fulfilled r2 -> outcome st = Fulfilled r3 ->
     ProgressPage.analyses hp' = data r2 /\
     ProgressPage.stats hp' = Some (data r3)).
Proof.
  cbn zeta. split; [|split; [|split]].
  - intros Hf. rewrite <- Promise_all3_fulfilled in Hf.
    destruct (not_fulfilled_rejected _ Hf) as [err Herr].
    by rewrite (loadData_rejected _ _ _ _ _ _ _ Herr).
  - intros r1 r2 r3 H1 H2 H3.
    pose proof (Promise_all3_outcome me hist st) as Hj.
    destruct (outcome (Promise_all3 me hist st)) as [[[a b] c]|err] eqn:E.
    + destruct Hj as (Ha&Hb&Hc). rewrite H1 in Ha. rewrite H2 in Hb. rewrite H3 in Hc.
      injection Ha as <-. injection Hb as <-. injection Hc as <-.
      rewrite (loadData_fulfilled _ _ _ _ _ _ _ _ _ E). cbn. done.
    + destruct Hj as [Hj|[Hj|Hj]]; congruence.
  - intros Hf. rewrite <- Promise_all2_fulfilled in Hf.
    destruct (not_fulfilled_rejected _ Hf) as [err Herr].
    by rewrite (loadProgress_rejected _ _ _ _ _ _ Herr).
  - intros r2 r3 H2 H3.
    pose proof (Promise_all2_outcome hist st) as Hj.
    destruct (outcome (Promise_all2 hist st)) as [[a b]|err] eqn:E.
    + destruct Hj as (Ha&Hb). rewrite H2 in Ha. rewrite H3 in Hb.
      injection Ha as <-. injection Hb as <-.
      rewrite (loadProgress_fulfilled _ _ _ _ _ _ _ E). cbn. done.
    + destruct Hj as [Hj|Hj]; congruence.
Qed.

Lemma loaders_join_all_or_nothing_witness :
  fulfilled (mkPromise 1 (Fulfilled (mkResponse 200 ex_user)))
    && fulfilled (mkPromise 2 (Fulfilled (mkResponse 200 [ex_analysis])))
    && fulfilled (mkPromise 3 (@Rejected (AxiosResponse ProgressStats) ex_server_error)) = false /\
  Dashboard.user ex_stats_failure.2 = None /\
  Dashboard.analyses ex_stats_failure.2 = [] /\
  Dashboard.stats ex_stats_failure.2 = None.
Proof.
  split; [reflexivity|].
  exact (proj1 (loaders_join_all_or_nothing ex_host
                  (mkPromise 1 (Fulfilled (mkResponse 200 ex_user)))
                  (mkPromise 2 (Fulfilled (mkResponse 200 [ex_analysis])))
                  (mkPromise 3 (Rejected ex_server_error))
                  ex_world Dashboard.init ProgressPage.init) eq_refl).
Defined.

(** *** Failures that are not authorization failures *)

(** The Dashboard load of [ex_stats_failure] (stats answer 500, the two
    other answers fulfilled) shows no toast, and the page it renders is
    the empty dashboard: no error is indicated to the user. *)
Lemma dashboard_stats_failure_shows_no_error :
  status_is ex_server_error 401 = false /\
  toasts ex_stats_failure.1 = [] /\
  Dashboard.render ex_toString ex_stats_failure.2 =
    Dashboard.Page None 0 0 "" 0%Q false Dashboard.NoAnalysesYet /\
  Dashboard.render ex_toString ex_stats_failure.2 =
    Dashboard.render ex_toString (Dashboard.mkHooks None [] None false false).
Proof. repeat split; reflexivity. Qed.

(** C6, as the code has it.  When the rejection surfaced by the
    Dashboard's join is not a 401, the session and the router are left
    alone, the error is written to the console only (no toast is added),
    the fetched fields keep their values and the page leaves its loading
    state, so that it renders its ordinary, possibly empty, view. *)
Theorem dashboard_load_failure_keeps_session url me hist st w h err nts :
  outcome (Promise_all3 me hist st) = Rejected err ->
  status_is err 401 = false ->
  let w' := (run (Dashboard.loadData url me hist st) w h).1 in
  let h' := (run (Dashboard.loadData url me hist st) w h).2 in
  localStorage w' = localStorage w /\
  history w' = history w /\
  toasts w' = toasts w /\
  console w' = console w ++ [("Error loading data:", err)] /\
  h' = Dashboard.mkHooks (Dashboard.user h) (Dashboard.analyses h) (Dashboard.stats h)
         (Dashboard.uploading h) false /\
  Dashboard.render nts h' <> Dashboard.Loading /\
  (fulfilled me = true -> fulfilled hist = true -> outcome st = Rejected err) /\
  completion (Dashboard.loadData url me hist st) w h = Normal tt.
Proof.
  intros Hj H401. cbn zeta.
  assert (completion (Dashboard.loadData url me hist st) w h = Normal tt) as Hc.
  { unfold_handlers; unfold_monad. rewrite Hj. cbn. rewrite H401. done. }
  rewrite (loadData_rejected _ _ _ _ _ _ _ Hj), H401. cbn.
  repeat split; try done.
  intros H1 H2. pose proof (Promise_all3_outcome me hist st) as Ho.
  rewrite Hj in Ho. unfold fulfilled in *.
  destruct (outcome me), (outcome hist); try done.
  destruct Ho as [Ho|[Ho|Ho]]; congruence.
Qed.

Lemma dashboard_load_failure_keeps_session_witness :
  outcome (Promise_all3 (mkPromise 1 (Fulfilled (mkResponse 200 ex_user)))
             (mkPromise 2 (Fulfilled (mkResponse 200 [ex_analysis])))
             (mkPromise 3 (@Rejected (AxiosResponse ProgressStats) ex_server_error)))
    = Rejected ex_server_error /\
  status_is ex_server_error 401 = false /\
  localStorage ex_stats_failure.1 = localStorage ex_world.
Proof.
  split; [reflexivity|]. split; [reflexivity|].
  exact (proj1 (dashboard_load_failure_keeps_session ex_host
                  (mkPromise 1 (Fulfilled (mkResponse 200 ex_user)))
                  (mkPromise 2 (Fulfilled (mkResponse 200 [ex_analysis])))
                  (mkPromise 3 (Rejected ex_server_error))
                  ex_world Dashboard.init ex_server_error ex_toString eq_refl eq_refl)).
Defined.

(** *** The route guard *)

Lemma location_push to w : location (App.push to w) = to.
Proof. unfold location, App.push. cbn. apply last_last. Qed.

Lemma localStorage_push to w : localStorage (App.push to w) = localStorage w.
Proof. reflexivity. Qed.



Lemma protected_child_page r child :
  App.protected_child r = Some child ->
  (forall to, child <> App.Navigate to) /\
  forall w, App.element w r = App.PrivateRoute (localStorage w) child.
Proof. destruct r; intros [= <-]; done. Qed.

Lemma render_page fuel w page :
  App.Routes w = Some page -> (forall to, page <> App.Navigate to) ->
  App.render fuel w = Some page.
Proof.
  intros Hr Hp. destruct fuel; cbn; rewrite Hr; destruct page; try done; by destruct (Hp to).
Qed.

Lemma render_redirect_auth fuel w :
  App.Routes w = Some (App.Navigate "/auth") ->
  App.render (S fuel) w = Some App.AuthPage.
Proof.
  intros Hr. cbn. rewrite Hr.
  apply render_page; [|done].
  unfold App.Routes. by rewrite location_push.
Qed.

(** With the empty string stored under ["token"], the dashboard route
    redirects to the auth page although a token is stored. *)
Lemma private_route_redirects_empty_token :
  getItem "token" (localStorage ex_empty_token) = Some "" /\
  App.matchPath (location ex_empty_token) = Some App.path_dashboard /\
  App.Routes ex_empty_token = Some (App.Navigate "/auth") /\
  App.render 1 ex_empty_token = Some App.AuthPage.
Proof. repeat split; reflexivity. Qed.

(** C2, as the code has it.  On each of the three protected routes the
    guard decides on the truthiness of the stored token.  With nothing
    stored under ["token"], or with the empty string, the route yields
    [<Navigate to="/auth">], the router ends on the auth page and the
    protected child is not rendered.  With any non-empty stored string the
    child is rendered, whatever the string is: nothing else about its
    format, and nothing about its expiry, is looked at. *)
Theorem private_route_guard w r child :
  App.protected_child r = Some child ->
  App.matchPath (location w) = Some r ->
  (getItem "token" (localStorage w) = None \/ getItem "token" (localStorage w) = Some "" ->
     App.Routes w = Some (App.Navigate "/auth") /\
     App.Routes w <> Some child /\
     forall fuel, App.render (S fuel) w = Some App.AuthPage /\
                  App.render (S fuel) w <> Some child) /\
  (forall t, getItem "token" (localStorage w) = Some t -> t <> "" ->
     App.Routes w = Some child /\ forall fuel, App.render fuel w = Some child).
Proof.
  intros Hc Hm. destruct (protected_child_page _ _ Hc) as [Hpage Hel].
  assert (App.Routes w = Some (App.PrivateRoute (localStorage w) child)) as HR.
  { unfold App.Routes. rewrite Hm. cbn. by rewrite Hel. }
  split.
  - intros Habs. apply truthy_false_iff in Habs.
    assert (App.Routes w = Some (App.Navigate "/auth")) as HN.
    { rewrite HR. unfold App.PrivateRoute. by rewrite Habs. }
    split; [done|]. split.
    + rewrite HN. intros [= E]. by destruct (Hpage "/auth").
    + intros fuel. rewrite (render_redirect_auth _ _ HN). split; [done|].
      intros [= E]. by destruct r; simplify_eq.
  - intros t Ht Hne.
    assert (App.Routes w = Some child) as HC.
    { rewrite HR. unfold App.PrivateRoute.
      assert (truthy (getItem "token" (localStorage w)) = true) as ->; [|done].
      apply truthy_true_iff. eauto. }
    split; [done|]. intros fuel. by apply render_page.
Qed.

Lemma private_route_guard_witness :
  App.protected_child (App.path_analysis "a1") = Some (App.AnalysisPage "a1") /\
  App.matchPath (location (App.push "/analysis/a1" ex_anonymous))
    = Some (App.path_analysis "a1") /\
  getItem "token" (localStorage (App.push "/analysis/a1" ex_anonymous)) = None /\
  App.Routes (App.push "/analysis/a1" ex_anonymous) = Some (App.Navigate "/auth").
Proof.
  split; [reflexivity|]. split; [reflexivity|]. split; [reflexivity|].
  exact (proj1 (proj1 (private_route_guard (App.push "/analysis/a1" ex_anonymous)
                         (App.path_analysis "a1") (App.AnalysisPage "a1") eq_refl eq_refl)
                  (or_introl eq_refl))).
Defined.

(** *** Login and register *)

Lemma handleSubmit_fulfilled url js reply response w h :
  outcome reply = Fulfilled response ->
  run (AuthPage.handleSubmit url js App.onAuthSuccess reply) w h =
    (mkWorld
       (setItem "user" (js (user (data response)))
          (setItem "token" (token (data response)) (localStorage w)))
       true
       (history w ++ ["/dashboard"])
       (toasts w ++ [toast_Success (if AuthPage.isLogin h then "Welcome back!"
                                    else "Account created successfully!")])
       (console w)
       (requests w ++
          [mkRequest POST
             (AuthPage.API url +:+
                (if AuthPage.isLogin h then "/auth/login" else "/auth/register"))
             []
             (if AuthPage.isLogin h
              then JsonBody [("email", AuthPage.form_email (AuthPage.formData h));
                             ("password", AuthPage.form_password (AuthPage.formData h))]
              else JsonBody [("email", AuthPage.form_email (AuthPage.formData h));
                             ("password", AuthPage.form_password (AuthPage.formData h));
                             ("name", AuthPage.form_name (AuthPage.formData h))])]),
     AuthPage.mkHooks (AuthPage.isLogin h) (AuthPage.formData h) false).
Proof. intros Hr. unfold_handlers; unfold_monad. cbn. rewrite Hr. done. Qed.

Lemma handleSubmit_rejected url js reply err w h :
  outcome reply = Rejected err ->
  let w' := (run (AuthPage.handleSubmit url js App.onAuthSuccess reply) w h).1 in
  localStorage w' = localStorage w /\ isAuthenticated w' = isAuthenticated w /\
  history w' = history w /\
  toasts w' = toasts w ++ [toast_Error (or_else (response_detail err) "Authentication failed")].
Proof. intros Hr. unfold_handlers; unfold_monad. cbn. rewrite Hr. done. Qed.

(** A login that the server answers with status 200 and an empty token
    populates storage and sets the flag, and what is rendered afterwards
    is the auth page. *)
Lemma login_with_empty_token_renders_auth_page :
  getItem "token" (localStorage ex_empty_login.1) = Some "" /\
  getItem "user" (localStorage ex_empty_login.1) = Some (ex_stringify ex_user) /\
  isAuthenticated ex_empty_login.1 = true /\
  toasts ex_empty_login.1 = [toast_Success "Welcome back!"] /\
  location ex_empty_login.1 = "/dashboard" /\
  App.render 1 ex_empty_login.1 = Some App.AuthPage.
Proof. repeat split; reflexivity. Qed.

(** C7, as the code has it.  After a fulfilled login or register answer
    the token and the serialized user are in storage, the App's
    authenticated flag is set and the router is at [/dashboard]; what is
    rendered there is the Dashboard when the returned token is a
    non-empty string, and the auth page when it is empty. *)
Theorem auth_success_populates_session url js reply response w h :
  outcome reply = Fulfilled response ->
  let w' := (run (AuthPage.handleSubmit url js App.onAuthSuccess reply) w h).1 in
  getItem "token" (localStorage w') = Some (token (data response)) /\
  getItem "user" (localStorage w') = Some (js (user (data response))) /\
  isAuthenticated w' = true /\
  location w' = "/dashboard" /\
  (token (data response) <> "" -> forall fuel, App.render fuel w' = Some App.Dashboard) /\
  (token (data response) = "" -> forall fuel, App.render (S fuel) w' = Some App.AuthPage) /\
  (exists endpoint b,
     requests w' = requests w ++ [mkRequest POST (AuthPage.API url +:+ endpoint) [] b] /\
     endpoint = if AuthPage.isLogin h then "/auth/login" else "/auth/register").
Proof.
  intros Hr. cbn zeta. rewrite (handleSubmit_fulfilled _ _ _ _ _ _ Hr). cbn.
  unfold getItem, setItem.
  assert (Hloc : forall l : list string, List.last (l ++ ["/dashboard"]) "/" = "/dashboard")
    by (intros l; apply last_last).
  split; [by rewrite lookup_insert_ne, lookup_insert_eq|].
  split; [by rewrite lookup_insert_eq|].
  split; [done|]. split; [apply Hloc|].
  match goal with
  | |- (_ -> forall fuel, App.render fuel ?w1 = _) /\ _ =>
      assert (App.Routes w1 =
              Some (App.PrivateRoute (localStorage w1) App.Dashboard)) as HR
  end.
  { unfold App.Routes, location. cbn. by rewrite Hloc. }
  cbn in HR. unfold App.PrivateRoute, getItem, setItem in HR.
  rewrite lookup_insert_ne, lookup_insert_eq in HR by done.
  split; [|split].
  - intros Ht fuel. apply render_page; [|done].
    rewrite HR.
    assert (truthy (Some (token (data response))) = true) as ->; [|done].
    apply truthy_true_iff. eauto.
  - intros Ht fuel. apply render_redirect_auth.
    rewrite HR, Ht. done.
  - eexists _, _. split; reflexivity.
Qed.

Lemma auth_success_populates_session_witness :
  outcome (mkPromise 1 (Fulfilled (mkResponse 200 (mkAuthData "abc" ex_user))))
    = Fulfilled (mkResponse 200 (mkAuthData "abc" ex_user)) /\
  getItem "token"
    (localStorage
       (run (AuthPage.handleSubmit ex_host ex_stringify App.onAuthSuccess
               (mkPromise 1 (Fulfilled (mkResponse 200 (mkAuthData "abc" ex_user)))))
          ex_anonymous AuthPage.init).1) = Some "abc".
Proof.
  split; [reflexivity|].
  exact (proj1 (auth_success_populates_session ex_host ex_stringify
                  (mkPromise 1 (Fulfilled (mkResponse 200 (mkAuthData "abc" ex_user))))
                  (mkResponse 200 (mkAuthData "abc" ex_user))
                  ex_anonymous AuthPage.init eq_refl)).
Defined.

(** *** The keys of durable storage *)

(** Every operation leaves storage alone, writes the two session keys, or
    removes the two session keys. *)
Lemma step_storage url js op w :
  localStorage (step url js op w) = localStorage w \/
  (exists t u, localStorage (step url js op w) =
                 setItem "user" u (setItem "token" t (localStorage w)) /\
               exists h reply response,
                 op = op_submit h reply /\ outcome reply = Fulfilled response /\
                 t = token (data response) /\ u = js (user (data response))) \/
  localStorage (step url js op w) = removeItem "user" (removeItem "token" (localStorage w)).
Proof.
  destruct op as [|h reply|h|h me hist st|h e reply|h hist st|h id reply]; cbn [step].
  - left. done.
  - destruct (outcome reply) as [response|err] eqn:E.
    + right; left. rewrite (handleSubmit_fulfilled _ _ _ _ _ _ E). cbn.
      eexists _, _. split; [done|]. eauto 10.
    + left. by destruct (handleSubmit_rejected url js reply err w h E) as (?&_).
  - right; right. by destruct (handleLogout_world w h) as (?&_).
  - destruct (loadData_storage url me hist st w h) as ([H|H]&_); auto.
  - left. by destruct (handleFileUpload_storage url e reply w h) as (?&_).
  - left. by destruct (loadProgress_world url hist st w h) as (?&_).
  - left. by destruct (loadAnalysis_world url id reply w h) as (?&_).
Qed.

Lemma session_keys_elem (k : string) : k ∈ session_keys <-> k = "token" \/ k = "user".
Proof. unfold session_keys. set_solver. Qed.

(** C8. Durable storage only ever holds the keys ["token"] and ["user"]:
    no operation of the client touches another key, so a storage within
    these two keys stays within them; a fulfilled login or register
    writes exactly the two, and a logout (by the button, or by the
    Dashboard on a 401) removes exactly the two. *)
Theorem storage_holds_token_and_user url js op w :
  dom (localStorage w) ⊆ session_keys ->
  let ls' := localStorage (step url js op w) in
  dom ls' ⊆ session_keys /\
  (forall k, k ∉ session_keys -> ls' !! k = localStorage w !! k) /\
  (forall h reply response,
     op = op_submit h reply -> outcome reply = Fulfilled response ->
     ls' = setItem "user" (js (user (data response)))
             (setItem "token" (token (data response)) (localStorage w)) /\
     dom ls' = session_keys) /\
  (forall h, op = op_logout h ->
     ls' = removeItem "user" (removeItem "token" (localStorage w)) /\ dom ls' = ∅) /\
  (forall h me hist st err,
     op = op_loadData h me hist st ->
     outcome (Promise_all3 me hist st) = Rejected err -> status_is err 401 = true ->
     ls' = removeItem "user" (removeItem "token" (localStorage w)) /\ dom ls' = ∅).
Proof.
  intros Hinv. cbn zeta.
  assert (Hset : forall t u, dom (setItem "user" u (setItem "token" t (localStorage w)))
                             = session_keys).
  { intros t u. unfold setItem, session_keys. rewrite !dom_insert_L. set_solver. }
  assert (Hdel : dom (removeItem "user" (removeItem "token" (localStorage w))) = ∅).
  { unfold removeItem. rewrite !dom_delete_L. unfold session_keys in Hinv. set_solver. }
  split; [|split; [|split; [|split]]].
  - destruct (step_storage url js op w) as [->|[(t&u&->&_)| ->]].
    + done.
    + by rewrite Hset.
    + rewrite Hdel. set_solver.
  - intros k Hk. rewrite session_keys_elem in Hk.
    destruct (step_storage url js op w) as [->|[(t&u&->&_)| ->]].
    + done.
    + unfold setItem. rewrite !lookup_insert_ne; [done| |]; intros <-; tauto.
    + unfold removeItem. rewrite !lookup_delete_ne; [done| |]; intros <-; tauto.
  - intros h reply response -> Hr. cbn [step].
    rewrite (handleSubmit_fulfilled _ _ _ _ _ _ Hr). cbn. split; [done|]. apply Hset.
  - intros h ->. cbn [step].
    destruct (handleLogout_world w h) as (->&_). split; [done|]. apply Hdel.
  - intros h me hist st err -> Hj H401. cbn [step].
    rewrite (loadData_rejected _ _ _ _ _ _ _ Hj), H401. cbn. split; [done|]. apply Hdel.
Qed.

Lemma storage_holds_token_and_user_witness :
  dom (localStorage ex_world) ⊆ session_keys /\
  dom (localStorage (step ex_host ex_stringify (op_logout Dashboard.init) ex_world))
    ⊆ session_keys.
Proof.
  assert (H : dom (localStorage ex_world) ⊆ session_keys) by compute_done.
  split; [exact H|].
  exact (proj1 (storage_holds_token_and_user ex_host ex_stringify
                  (op_logout Dashboard.init) ex_world H)).
Defined.

(** *** The displayed progress score *)

Lemma to_uint_nonnil (n : N) : N.to_uint n <> Decimal.Nil.
Proof.
  destruct n as [|p]; [done|]. cbn. apply DecimalPos.Unsigned.to_uint_nonnil.
Qed.

Lemma digits_nonempty (n : N) : digits n <> "".
Proof.
  unfold digits. pose proof (to_uint_nonnil n) as Hn.
  destruct (N.to_uint n); try done; cbn; discriminate.
Qed.

Lemma parseInt_digits (n : N) : parseInt (digits n) = Some (Z.of_N n).
Proof.
  unfold parseInt, digits.
  change (NilZero.string_of_uint (N.to_uint n))
    with (NilZero.string_of_int (Decimal.Pos (N.to_uint n))).
  rewrite NilZero.isi.
  - by rewrite DecimalN.Unsigned.of_to.
  - intros [= E]. by apply (to_uint_nonnil n).
  - discriminate.
Qed.

Lemma parseInt_minus_digits (n : N) : parseInt ("-" +:+ digits n) = Some (- Z.of_N n)%Z.
Proof.
  unfold parseInt, digits.
  change ("-" +:+ NilZero.string_of_uint (N.to_uint n))
    with (NilZero.string_of_int (Decimal.Neg (N.to_uint n))).
  rewrite NilZero.isi.
  - by rewrite DecimalN.Unsigned.of_to.
  - discriminate.
  - intros [= E]. by apply (to_uint_nonnil n).
Qed.

(** Rounding a magnitude: [floor (y + 1/2)] is a natural number within
    one half of [y]. *)
Lemma round_half_up (y : Q) :
  (0 <= y)%Q ->
  (0 <= Qfloor (y + (1 # 2)))%Z /\
  (Qabs (y - inject_Z (Qfloor (y + (1 # 2)))) <= 1 # 2)%Q.
Proof.
  intros Hy. split.
  - change 0%Z with (Qfloor 0). apply Qfloor_resp_le. lra.
  - pose proof (Qfloor_le (y + (1 # 2))) as Hlo.
    pose proof (Qlt_floor (y + (1 # 2))) as Hhi.
    rewrite inject_Z_plus in Hhi. change (inject_Z 1) with 1%Q in Hhi.
    apply Qabs_Qle_condition. split; lra.
Qed.

(** [toFixed(0)] below 10^21: sign, then the digits of the rounded
    magnitude. *)
Lemma toFixed0_nonneg nts (x : Q) :
  (0 <= x)%Q -> (x < inject_Z pow10_21)%Q ->
  toFixed0 nts x = digits (Z.to_N (Qfloor (x + (1 # 2)))).
Proof.
  intros H0 Hlt. unfold toFixed0.
  destruct (Qlt_le_dec x 0) as [Hneg|_]; [lra|].
  destruct (Qlt_le_dec x (inject_Z pow10_21)) as [_|Hge]; [done | lra].
Qed.

Lemma toFixed0_neg nts (x : Q) :
  (x < 0)%Q -> (- x < inject_Z pow10_21)%Q ->
  toFixed0 nts x = "-" +:+ digits (Z.to_N (Qfloor (- x + (1 # 2)))).
Proof.
  intros H0 Hlt. unfold toFixed0.
  destruct (Qlt_le_dec x 0) as [_|Hpos]; [|lra].
  destruct (Qlt_le_dec (- x) (inject_Z pow10_21)) as [_|Hge]; [done | lra].
Qed.

Lemma toFixed0_integer nts (x : Q) :
  (Qabs x < inject_Z pow10_21)%Q ->
  toFixed0 nts x <> "" /\
  exists n : Z, (Qabs (x - inject_Z n) <= 1 # 2)%Q /\ parseInt (toFixed0 nts x) = Some n.
Proof.
  intros Hx. apply Qabs_Qlt_condition in Hx as [Hlo Hhi].
  destruct (Qlt_le_dec x 0) as [Hneg|Hpos].
  - rewrite toFixed0_neg by lra.
    destruct (round_half_up (- x)) as [Hn Hr]; [lra|].
    split; [discriminate|].
    exists (- Qfloor (- x + (1 # 2)))%Z. split.
    + rewrite inject_Z_opp.
      apply Qabs_Qle_condition in Hr as [Hr1 Hr2].
      apply Qabs_Qle_condition. split; lra.
    + rewrite parseInt_minus_digits. by rewrite Z2N.id.
  - rewrite toFixed0_nonneg by lra.
    destruct (round_half_up x Hpos) as [Hn Hr].
    split; [apply digits_nonempty|].
    exists (Qfloor (x + (1 # 2))). split; [done|].
    rewrite parseInt_digits. by rewrite Z2N.id.
Qed.

Lemma toFixed0_nonempty nts (x : Q) :
  (forall q, nts q <> "") -> toFixed0 nts x <> "".
Proof.
  intros Hnts. unfold toFixed0.
  destruct (Qlt_le_dec x 0); [discriminate|].
  destruct (Qlt_le_dec x (inject_Z pow10_21)); cbn; [apply digits_nonempty | apply Hnts].
Qed.

Lemma or_number_present (s : string) (n : Z) :
  s <> "" -> or_number (Some s) n = RString s.
Proof.
  intros Hs. unfold or_number.
  assert (truthy (Some s) = true) as -> by (apply truthy_true_iff; eauto).
  done.
Qed.

(** C10. In the detail view, on a dashboard card and in a timeline entry
    the score shown for an analysis that has a [progress_score] is the
    string [toFixed(0)] makes of it, which for a magnitude below 10^21 (as
    any score of the 0-100 scale is) is a decimal integer within one half
    of the score; for an analysis without one it is the number 50.
    [Number::toString], which prints larger magnitudes, never returns the
    empty string. *)
Theorem progress_score_display nts (a : Analysis) :
  (forall q, nts q <> "") ->
  (forall x, progress_score a = Some x ->
     AnalysisPage.progress_score_card nts a = RString (toFixed0 nts x) /\
     Dashboard.card_progress_score nts a = RString (toFixed0 nts x) /\
     ProgressPage.timeline_progress_score nts a = RString (toFixed0 nts x) /\
     ((Qabs x < inject_Z pow10_21)%Q ->
      exists n : Z,
        parseInt (toFixed0 nts x) = Some n /\ (Qabs (x - inject_Z n) <= 1 # 2)%Q)) /\
  (progress_score a = None ->
     AnalysisPage.progress_score_card nts a = RNumber 50 /\
     Dashboard.card_progress_score nts a = RNumber 50 /\
     ProgressPage.timeline_progress_score nts a = RNumber 50).
Proof.
  intros Hnts. split.
  - intros x Hx.
    unfold AnalysisPage.progress_score_card, Dashboard.card_progress_score,
      ProgressPage.timeline_progress_score.
    rewrite Hx. cbn [fmap option_fmap option_map].
    rewrite or_number_present by (by apply toFixed0_nonempty).
    repeat split.
    intros Hr. destruct (toFixed0_integer nts x Hr) as (_ & n & Hn & Hp). eauto.
  - intros Hx.
    unfold AnalysisPage.progress_score_card, Dashboard.card_progress_score,
      ProgressPage.timeline_progress_score.
    rewrite Hx. done.
Qed.

Lemma progress_score_display_witness :
  (forall q, ex_toString q <> "") /\
  progress_score ex_analysis = Some (145 # 2)%Q /\
  AnalysisPage.progress_score_card ex_toString ex_analysis
    = RString (toFixed0 ex_toString (145 # 2)%Q) /\
  toFixed0 ex_toString (145 # 2)%Q = "73" /\
  progress_score ex_unscored = None /\
  Dashboard.card_progress_score ex_toString ex_unscored = RNumber 50.
Proof.
  assert (H : forall q, ex_toString q <> "") by (intros q; discriminate).
  split; [exact H|]. split; [reflexivity|].
  split; [exact (proj1 (proj1 (progress_score_display ex_toString ex_analysis H)
                          (145 # 2)%Q eq_refl))|].
  split; [reflexivity|]. split; [reflexivity|].
  exact (proj1 (proj2 (proj2 (progress_score_display ex_toString ex_unscored H) eq_refl))).
Defined.

(* ===================================================================== *)
(** * Further properties of the pages *)
(* ===================================================================== *)

(** *** Loaders *)

Lemma loadProgress_requests url hist st w h :
  requests (run (ProgressPage.loadProgress url hist st) w h).1 =
    requests w ++
      [mkRequest GET (ProgressPage.API url +:+ "/analysis/history")
         (bearer (getItem "token" (localStorage w))) NoBody;
       mkRequest GET (ProgressPage.API url +:+ "/progress/stats")
         (bearer (getItem "token" (localStorage w))) NoBody] /\
  completion (ProgressPage.loadProgress url hist st) w h = Normal tt /\
  ProgressPage.loading (run (ProgressPage.loadProgress url hist st) w h).2 = false.
Proof.
  destruct hist as [t1 [r1|e1]], st as [t2 [r2|e2]]; exec;
    repeat (case_match; cbn in *; simplify_eq); by rewrite <- ?app_assoc.
Qed.

Lemma loadAnalysis_run url id reply w h :
  run (AnalysisPage.loadAnalysis url id reply) w h =
    (mkWorld (localStorage w) (isAuthenticated w) (history w) (toasts w)
       match outcome reply with
       | Fulfilled _ => console w
       | Rejected error => console w ++ [("Error loading analysis:", error)]
       end
       (requests w ++
          [mkRequest GET (AnalysisPage.API url +:+ "/analysis/" +:+ id)
             (bearer (getItem "token" (localStorage w))) NoBody]),
     AnalysisPage.mkHooks
       match outcome reply with
       | Fulfilled response => Some (data response)
       | Rejected _ => AnalysisPage.analysis h
       end
       false) /\
  completion (AnalysisPage.loadAnalysis url id reply) w h = Normal tt.
Proof. destruct reply as [t [r|e]]; exec; done. Qed.

Lemma loadData_completion url me hist st w h :
  completion (Dashboard.loadData url me hist st) w h = Normal tt.
Proof.
  destruct (outcome (Promise_all3 me hist st)) as [[[r1 r2] r3]|err] eqn:E;
    unfold_handlers; unfold_monad; rewrite E; cbn; [done|].
  destruct (status_is err 401); done.
Qed.

(** X1. Whatever the backend answers, each of the three loaders returns
    normally and ends with the page's [loading] hook at [false]: no
    rejection escapes the handler and no page is left on its loading
    screen. *)
Theorem loaders_always_finish url nts id me hist st reply w hd hp ha :
  (completion (Dashboard.loadData url me hist st) w hd = Normal tt /\
   Dashboard.render nts (run (Dashboard.loadData url me hist st) w hd).2
     <> Dashboard.Loading) /\
  (completion (ProgressPage.loadProgress url hist st) w hp = Normal tt /\
   ProgressPage.render nts (run (ProgressPage.loadProgress url hist st) w hp).2
     <> ProgressPage.Loading) /\
  (completion (AnalysisPage.loadAnalysis url id reply) w ha = Normal tt /\
   AnalysisPage.render nts (run (AnalysisPage.loadAnalysis url id reply) w ha).2
     <> AnalysisPage.Loading).
Proof.
  split; [|split].
  - split; [apply loadData_completion|].
    destruct (outcome (Promise_all3 me hist st)) as [[[r1 r2] r3]|err] eqn:E.
    + rewrite (loadData_fulfilled _ _ _ _ _ _ _ _ _ E). discriminate.
    + rewrite (loadData_rejected _ _ _ _ _ _ _ E). discriminate.
  - destruct (loadProgress_requests url hist st w hp) as (_ & Hc & Hl).
    split; [done|]. unfold ProgressPage.render. rewrite Hl.
    by destruct (ProgressPage.analyses _).
  - destruct (loadAnalysis_run url id reply w ha) as (Hr & Hc).
    split; [done|]. rewrite Hr. unfold AnalysisPage.render. cbn.
    by repeat case_match.
Qed.

(** X2. Every loader issues all of its requests before it looks at any
    answer, so the requests go out whatever the answers are (three GETs
    for the Dashboard, two for the Progress page, one for the detail
    page), each with the single header [Authorization: Bearer <token>]
    built from the stored token; with nothing stored under ["token"] the
    header sent is ["Bearer null"]. *)
Theorem loaders_send_bearer_requests url id me hist st reply w hd hp ha :
  let auth := [("Authorization", "Bearer " +:+ ToString (getItem "token" (localStorage w)))] in
  requests (run (Dashboard.loadData url me hist st) w hd).1 =
    requests w ++
      [mkRequest GET ((url +:+ "/api") +:+ "/auth/me") auth NoBody;
       mkRequest GET ((url +:+ "/api") +:+ "/analysis/history") auth NoBody;
       mkRequest GET ((url +:+ "/api") +:+ "/progress/stats") auth NoBody] /\
  requests (run (ProgressPage.loadProgress url hist st) w hp).1 =
    requests w ++
      [mkRequest GET ((url +:+ "/api") +:+ "/analysis/history") auth NoBody;
       mkRequest GET ((url +:+ "/api") +:+ "/progress/stats") auth NoBody] /\
  requests (run (AnalysisPage.loadAnalysis url id reply) w ha).1 =
    requests w ++
      [mkRequest GET ((url +:+ "/api") +:+ "/analysis/" +:+ id) auth NoBody] /\
  (getItem "token" (localStorage w) = None ->
   auth = [("Authorization", "Bearer null")]).
Proof.
  cbn zeta. split; [|split; [|split]].
  - destruct (outcome (Promise_all3 me hist st)) as [[[r1 r2] r3]|err] eqn:E.
    + by rewrite (loadData_fulfilled _ _ _ _ _ _ _ _ _ E).
    + by rewrite (loadData_rejected _ _ _ _ _ _ _ E).
  - by destruct (loadProgress_requests url hist st w hp) as (-> & _).
  - destruct (loadAnalysis_run url id reply w ha) as (-> & _). cbn.
    done.
  - by intros ->.
Qed.

Lemma loaders_send_bearer_requests_witness :
  getItem "token" (localStorage ex_anonymous) = None /\
  [("Authorization", "Bearer " +:+ ToString (getItem "token" (localStorage ex_anonymous)))]
    = [("Authorization", "Bearer null")].
Proof.
  split; [reflexivity|].
  exact (proj2 (proj2 (proj2
    (loaders_send_bearer_requests ex_host "a1"
       (mkPromise 1 (Rejected ex_unauthorized))
       (mkPromise 2 (Rejected ex_unauthorized))
       (mkPromise 3 (Rejected ex_unauthorized))
       (mkPromise 1 (Rejected ex_unauthorized))
       ex_anonymous Dashboard.init ProgressPage.init AnalysisPage.init))) eq_refl).
Defined.

(** *** The detail page *)

(** X3. A detail load that fails, for whatever reason (unknown id, expired
    token, server error, no network), on a freshly mounted page ends in
    the "Analysis not found" state; nothing is toasted, the session and
    the router are left alone and the error is only logged. *)
Theorem analysis_load_failure_renders_not_found url nts id reply err w :
  outcome reply = Rejected err ->
  let w' := (run (AnalysisPage.loadAnalysis url id reply) w AnalysisPage.init).1 in
  let h' := (run (AnalysisPage.loadAnalysis url id reply) w AnalysisPage.init).2 in
  AnalysisPage.render nts h' = AnalysisPage.NotFound /\
  localStorage w' = localStorage w /\
  history w' = history w /\
  toasts w' = toasts w /\
  console w' = console w ++ [("Error loading analysis:", err)].
Proof.
  intros Hr. cbn zeta.
  destruct (loadAnalysis_run url id reply w AnalysisPage.init) as (-> & _).
  rewrite Hr. done.
Qed.

Lemma analysis_load_failure_renders_not_found_witness :
  outcome (mkPromise 1 (@Rejected (AxiosResponse Analysis) ex_unauthorized))
    = Rejected ex_unauthorized /\
  AnalysisPage.render ex_toString
    (run (AnalysisPage.loadAnalysis ex_host "a1" (mkPromise 1 (Rejected ex_unauthorized)))
       ex_world AnalysisPage.init).2 = AnalysisPage.NotFound.
Proof.
  split; [reflexivity|].
  exact (proj1 (analysis_load_failure_renders_not_found ex_host ex_toString "a1"
                  (mkPromise 1 (Rejected ex_unauthorized)) ex_unauthorized ex_world eq_refl)).
Defined.

(** X4. The detail page never resets its hooks: when the route's id
    changes and the new load fails, the analysis loaded before stays in
    the [analysis] hook and the page goes on showing it instead of the
    not-found state; a fulfilled load replaces it. *)
Theorem analysis_reload_failure_keeps_previous url nts id reply w h a :
  AnalysisPage.analysis h = Some a ->
  let h' := (run (AnalysisPage.loadAnalysis url id reply) w h).2 in
  (forall err, outcome reply = Rejected err ->
     AnalysisPage.analysis h' = Some a /\
     AnalysisPage.render nts h' = AnalysisPage.render nts (AnalysisPage.mkHooks (Some a) false) /\
     AnalysisPage.render nts h' <> AnalysisPage.NotFound) /\
  (forall response, outcome reply = Fulfilled response ->
     AnalysisPage.analysis h' = Some (data response)).
Proof.
  intros Ha. cbn zeta.
  destruct (loadAnalysis_run url id reply w h) as (-> & _).
  split.
  - intros err ->. cbn. rewrite Ha. done.
  - intros response ->. done.
Qed.

Lemma analysis_reload_failure_keeps_previous_witness :
  AnalysisPage.analysis (AnalysisPage.mkHooks (Some ex_analysis) false) = Some ex_analysis /\
  AnalysisPage.analysis
    (run (AnalysisPage.loadAnalysis ex_host "a2" (mkPromise 1 (Rejected ex_server_error)))
       ex_world (AnalysisPage.mkHooks (Some ex_analysis) false)).2 = Some ex_analysis.
Proof.
  split; [reflexivity|].
  exact (proj1 (proj1 (analysis_reload_failure_keeps_previous ex_host ex_toString "a2"
                         (mkPromise 1 (Rejected ex_server_error)) ex_world
                         (AnalysisPage.mkHooks (Some ex_analysis) false) ex_analysis eq_refl)
                  ex_server_error eq_refl)).
Defined.

(** *** Logging out *)

(** X5. When at least one of the Dashboard's three answers is a rejection
    and every rejection among them carries status 401 (the usual case of
    an expired token), the load logs the user out whatever the order in
    which the answers settle: both session keys are gone, the router is
    sent to ["/"], the fetched fields are not set and the page leaves its
    loading state. *)
Theorem dashboard_unauthorized_logs_out url me hist st w h :
  fulfilled me && fulfilled hist && fulfilled st = false ->
  (forall err, outcome me = Rejected err \/ outcome hist = Rejected err \/
               outcome st = Rejected err -> status_is err 401 = true) ->
  let w' := (run (Dashboard.loadData url me hist st) w h).1 in
  let h' := (run (Dashboard.loadData url me hist st) w h).2 in
  getItem "token" (localStorage w') = None /\
  getItem "user" (localStorage w') = None /\
  history w' = history w ++ ["/"] /\
  toasts w' = toasts w /\
  h' = Dashboard.mkHooks (Dashboard.user h) (Dashboard.analyses h) (Dashboard.stats h)
         (Dashboard.uploading h) false.
Proof.
  intros Hf H401. cbn zeta.
  rewrite <- Promise_all3_fulfilled in Hf.
  destruct (not_fulfilled_rejected _ Hf) as [err Herr].
  pose proof (Promise_all3_outcome me hist st) as Ho. rewrite Herr in Ho.
  rewrite (loadData_rejected _ _ _ _ _ _ _ Herr), (H401 err Ho). cbn.
  unfold getItem, removeItem.
  by rewrite lookup_delete_ne, !lookup_delete_eq.
Qed.

Lemma dashboard_unauthorized_logs_out_witness :
  fulfilled (mkPromise 3 (@Rejected (AxiosResponse User) ex_unauthorized))
    && fulfilled (mkPromise 1 (Fulfilled (mkResponse 200 [ex_analysis])))
    && fulfilled (mkPromise 2 (@Rejected (AxiosResponse ProgressStats) ex_unauthorized)) = false /\
  getItem "token"
    (localStorage
       (run (Dashboard.loadData ex_host
               (mkPromise 3 (Rejected ex_unauthorized))
               (mkPromise 1 (Fulfilled (mkResponse 200 [ex_analysis])))
               (mkPromise 2 (Rejected ex_unauthorized)))
          ex_world Dashboard.init).1) = None.
Proof.
  split; [reflexivity|].
  refine (proj1 (dashboard_unauthorized_logs_out ex_host
                   (mkPromise 3 (Rejected ex_unauthorized))
                   (mkPromise 1 (Fulfilled (mkResponse 200 [ex_analysis])))
                   (mkPromise 2 (Rejected ex_unauthorized))
                   ex_world Dashboard.init eq_refl _)).
  intros err [H|[H|H]]; cbn in H; try discriminate H;
    injection H as <-; reflexivity.
Defined.

Lemma Routes_root w :
  location w = "/" ->
  App.Routes w = Some (if isAuthenticated w then App.Navigate "/dashboard" else App.LandingPage).
Proof. intros Hl. unfold App.Routes. rewrite Hl. done. Qed.

Lemma Routes_dashboard w :
  location w = "/dashboard" ->
  App.Routes w = Some (App.PrivateRoute (localStorage w) App.Dashboard).
Proof. intros Hl. unfold App.Routes. rewrite Hl. done. Qed.

Lemma PrivateRoute_absent ls child :
  truthy (getItem "token" ls) = false -> App.PrivateRoute ls child = App.Navigate "/auth".
Proof. intros H. unfold App.PrivateRoute. by rewrite H. Qed.

Lemma PrivateRoute_present ls child :
  truthy (getItem "token" ls) = true -> App.PrivateRoute ls child = child.
Proof. intros H. unfold App.PrivateRoute. by rewrite H. Qed.

(** From ["/"] with the flag set and no usable token the router goes to
    [/dashboard], then to [/auth]. *)
Lemma render_root_stale_flag fuel w :
  location w = "/" -> isAuthenticated w = true ->
  truthy (getItem "token" (localStorage w)) = false ->
  App.render (S (S fuel)) w = Some App.AuthPage.
Proof.
  intros Hl Ha Ht.
  change (App.render (S (S fuel)) w) with
    (match App.Routes w with
     | Some (App.Navigate to) => App.render (S fuel) (App.push to w)
     | shown => shown
     end).
  rewrite (Routes_root _ Hl), Ha.
  apply render_redirect_auth.
  rewrite Routes_dashboard by apply location_push.
  by rewrite PrivateRoute_absent.
Qed.

(** X6. After a logout no protected route renders its page any more, and
    the router, sent to ["/"], ends on a public page.  Which one depends
    on the App's [isAuthenticated] hook, which the logout does not reset:
    with the hook still set the root route redirects to [/dashboard],
    whose guard redirects to [/auth], so the user lands on the login form;
    only with the hook unset is the landing page shown. *)
Theorem logout_lands_on_public_page w h :
  let w' := (run Dashboard.handleLogout w h).1 in
  isAuthenticated w' = isAuthenticated w /\
  (forall r child, App.protected_child r = Some child ->
     App.element w' r = App.Navigate "/auth") /\
  (isAuthenticated w = true -> forall fuel, App.render (S (S fuel)) w' = Some App.AuthPage) /\
  (isAuthenticated w = false -> forall fuel, App.render fuel w' = Some App.LandingPage).
Proof.
  cbn zeta.
  set (w' := (run Dashboard.handleLogout w h).1).
  assert (Hls : truthy (getItem "token" (localStorage w')) = false).
  { subst w'. exec. unfold getItem, removeItem.
    by rewrite lookup_delete_ne, lookup_delete_eq. }
  assert (Hloc : location w' = "/").
  { subst w'. exec. unfold location. cbn. apply last_last. }
  assert (Hflag : isAuthenticated w' = isAuthenticated w) by done.
  split; [done|]. split; [|split].
  - intros r child Hc. destruct (protected_child_page _ _ Hc) as [_ ->].
    by apply PrivateRoute_absent.
  - intros Ha fuel. apply render_root_stale_flag; [done| |done]. by rewrite Hflag.
  - intros Ha fuel. apply render_page; [|done].
    rewrite (Routes_root _ Hloc), Hflag, Ha. done.
Qed.

Lemma logout_lands_on_public_page_witness :
  isAuthenticated ex_world = true /\
  App.render 2 (run Dashboard.handleLogout ex_world Dashboard.init).1 = Some App.AuthPage.
Proof.
  split; [reflexivity|].
  exact (proj1 (proj2 (proj2 (logout_lands_on_public_page ex_world Dashboard.init)))
           eq_refl 0%nat).
Defined.

(** *** The App's flag and the root route *)

(** X7. The mount effect of [App] sets [isAuthenticated] from storage
    alone (set exactly when a non-empty token is stored) and touches
    nothing else, so a session survives a reload: at ["/"] a browser
    holding a non-empty token is redirected to the dashboard, and one
    without (or with an empty one) sees the landing page. *)
Theorem mount_restores_flag_from_storage w :
  let w' := (run (@App.mount unit) w tt).1 in
  isAuthenticated w' = truthy (getItem "token" (localStorage w)) /\
  localStorage w' = localStorage w /\
  history w' = history w /\
  requests w' = requests w /\
  (location w = "/" ->
     (forall t, getItem "token" (localStorage w) = Some t -> t <> "" ->
        forall fuel, App.render (S fuel) w' = Some App.Dashboard) /\
     (getItem "token" (localStorage w) = None \/ getItem "token" (localStorage w) = Some "" ->
        forall fuel, App.render fuel w' = Some App.LandingPage)).
Proof.
  cbn zeta.
  set (w' := (run (@App.mount unit) w tt).1).
  assert (Hflag : isAuthenticated w' = truthy (getItem "token" (localStorage w))) by done.
  assert (Hls : localStorage w' = localStorage w) by done.
  assert (Hh : history w' = history w) by done.
  split; [done|]. split; [done|]. split; [done|]. split; [done|].
  intros Hloc.
  assert (Hloc' : location w' = "/") by (unfold location; by rewrite Hh).
  split.
  - intros t Ht Hne fuel.
    assert (Htr : truthy (getItem "token" (localStorage w)) = true)
      by (apply truthy_true_iff; eauto).
    change (App.render (S fuel) w') with
      (match App.Routes w' with
       | Some (App.Navigate to) => App.render fuel (App.push to w')
       | shown => shown
       end).
    rewrite (Routes_root _ Hloc'), Hflag, Htr.
    apply render_page; [|done].
    rewrite Routes_dashboard by apply location_push.
    rewrite PrivateRoute_present; [done|].
    by rewrite localStorage_push, Hls.
  - intros Habs fuel. apply truthy_false_iff in Habs.
    apply render_page; [|done].
    by rewrite (Routes_root _ Hloc'), Hflag, Habs.
Qed.

Lemma mount_restores_flag_from_storage_witness :
  location (App.push "/" ex_world) = "/" /\
  getItem "token" (localStorage (App.push "/" ex_world)) = Some "abc" /\
  App.render 1 (run (@App.mount unit) (App.push "/" ex_world) tt).1 = Some App.Dashboard.
Proof.
  split; [reflexivity|]. split; [reflexivity|].
  refine (proj1 (proj2 (proj2 (proj2 (proj2
            (mount_restores_flag_from_storage (App.push "/" ex_world))))) eq_refl)
            "abc" eq_refl _ 0%nat).
  discriminate.
Defined.

(** *** Login, register and logout together *)

(** X8. Logging in (or registering) and then logging out leaves storage
    as it was before, when it held no session to begin with: the two
    writes of the login are exactly undone by the two removals of the
    logout.  In general the two steps leave storage without ["token"] and
    ["user"] and with every other key unchanged. *)
Theorem login_logout_round_trip url js h hd reply response w :
  outcome reply = Fulfilled response ->
  let ls' := localStorage (step url js (op_logout hd) (step url js (op_submit h reply) w)) in
  ls' = removeItem "user" (removeItem "token" (localStorage w)) /\
  (getItem "token" (localStorage w) = None -> getItem "user" (localStorage w) = None ->
   ls' = localStorage w).
Proof.
  intros Hr. cbn zeta. cbn [step].
  destruct (handleLogout_world
              (run (AuthPage.handleSubmit url js App.onAuthSuccess reply) w h).1 hd)
    as (-> & _).
  rewrite (handleSubmit_fulfilled _ _ _ _ _ _ Hr). cbn.
  unfold removeItem, setItem, getItem.
  assert (delete "user" (delete "token"
            (<["user":=js (user (data response))]>
               (<["token":=token (data response)]> (localStorage w))))
          = delete "user" (delete "token" (localStorage w))) as ->.
  { apply map_eq. intros k.
    destruct (decide (k = "user")) as [->|Hu]; [by rewrite !lookup_delete_eq|].
    rewrite !(lookup_delete_ne _ "user") by done.
    destruct (decide (k = "token")) as [->|Ht]; [by rewrite !lookup_delete_eq|].
    rewrite !(lookup_delete_ne _ "token") by done.
    by rewrite !lookup_insert_ne. }
  split; [done|]. intros Ht Hu.
  rewrite (delete_id (localStorage w) "token") by done.
  by rewrite delete_id.
Qed.

Lemma login_logout_round_trip_witness :
  outcome (mkPromise 1 (Fulfilled (mkResponse 200 (mkAuthData "abc" ex_user))))
    = Fulfilled (mkResponse 200 (mkAuthData "abc" ex_user)) /\
  getItem "token" (localStorage ex_anonymous) = None /\
  getItem "user" (localStorage ex_anonymous) = None /\
  localStorage
    (step ex_host ex_stringify (op_logout Dashboard.init)
       (step ex_host ex_stringify
          (op_submit AuthPage.init
             (mkPromise 1 (Fulfilled (mkResponse 200 (mkAuthData "abc" ex_user)))))
          ex_anonymous)) = localStorage ex_anonymous.
Proof.
  split; [reflexivity|]. split; [reflexivity|]. split; [reflexivity|].
  exact (proj2 (login_logout_round_trip ex_host ex_stringify AuthPage.init Dashboard.init
                  (mkPromise 1 (Fulfilled (mkResponse 200 (mkAuthData "abc" ex_user))))
                  (mkResponse 200 (mkAuthData "abc" ex_user)) ex_anonymous eq_refl)
           eq_refl eq_refl).
Defined.

Lemma handleSubmit_rejected_run url js reply err w h :
  outcome reply = Rejected err ->
  run (AuthPage.handleSubmit url js App.onAuthSuccess reply) w h =
    (mkWorld (localStorage w) (isAuthenticated w) (history w)
       (toasts w ++ [toast_Error (or_else (response_detail err) "Authentication failed")])
       (console w ++ [("Auth error:", err)])
       (requests w ++
          [mkRequest POST
             (AuthPage.API url +:+
                (if AuthPage.isLogin h then "/auth/login" else "/auth/register"))
             [] (AuthPage.payload h)]),
     AuthPage.mkHooks (AuthPage.isLogin h) (AuthPage.formData h) false) /\
  completion (AuthPage.handleSubmit url js App.onAuthSuccess reply) w h = Normal tt.
Proof. intros Hr. unfold_handlers; unfold_monad. cbn. rewrite Hr. done. Qed.

(** X9. A rejected login or register changes nothing of the session: storage,
    the App's flag and the router stay as they were.  The form keeps its
    mode and what was typed, the submit button is released ([loading]
    false) and one error toast is shown: the server's [detail] when it is
    a non-empty string, ["Authentication failed"] otherwise (no detail,
    an empty one, or no response at all). *)
Theorem auth_failure_keeps_form url js reply err w h :
  outcome reply = Rejected err ->
  let w' := (run (AuthPage.handleSubmit url js App.onAuthSuccess reply) w h).1 in
  let h' := (run (AuthPage.handleSubmit url js App.onAuthSuccess reply) w h).2 in
  localStorage w' = localStorage w /\
  isAuthenticated w' = isAuthenticated w /\
  history w' = history w /\
  h' = AuthPage.mkHooks (AuthPage.isLogin h) (AuthPage.formData h) false /\
  (forall m, response_detail err = Some m -> m <> "" ->
     toasts w' = toasts w ++ [toast_Error m]) /\
  (response_detail err = None \/ response_detail err = Some "" ->
     toasts w' = toasts w ++ [toast_Error "Authentication failed"]) /\
  (response err = None -> toasts w' = toasts w ++ [toast_Error "Authentication failed"]).
Proof.
  intros Hr. cbn zeta.
  destruct (handleSubmit_rejected_run url js reply err w h Hr) as (-> & _). cbn.
  repeat (split; [done|]). split; [|split].
  - intros m -> Hm. by rewrite or_else_present.
  - intros Hd. by rewrite or_else_absent.
  - intros Hn. rewrite or_else_absent; [done|]. left.
    unfold response_detail. by rewrite Hn.
Qed.

Lemma auth_failure_keeps_form_witness :
  outcome (mkPromise 1 (@Rejected (AxiosResponse AuthData) ex_unauthorized))
    = Rejected ex_unauthorized /\
  response_detail ex_unauthorized = Some "Invalid token" /\
  toasts (run (AuthPage.handleSubmit ex_host ex_stringify App.onAuthSuccess
                 (mkPromise 1 (Rejected ex_unauthorized))) ex_anonymous AuthPage.init).1
    = [toast_Error "Invalid token"].
Proof.
  split; [reflexivity|]. split; [reflexivity|].
  refine (proj1 (proj2 (proj2 (proj2 (proj2
            (auth_failure_keeps_form ex_host ex_stringify
               (mkPromise 1 (Rejected ex_unauthorized)) ex_unauthorized
               ex_anonymous AuthPage.init eq_refl)))))
            "Invalid token" eq_refl _).
  discriminate.
Defined.

Lemma handleSubmit_requests url js reply w h :
  requests (run (AuthPage.handleSubmit url js App.onAuthSuccess reply) w h).1 =
    requests w ++
      [mkRequest POST
         (AuthPage.API url +:+
            (if AuthPage.isLogin h then "/auth/login" else "/auth/register"))
         [] (AuthPage.payload h)].
Proof.
  destruct (outcome reply) as [response|err] eqn:E.
  - by rewrite (handleSubmit_fulfilled _ _ _ _ _ _ E).
  - by destruct (handleSubmit_rejected_run url js reply err w h E) as (-> & _).
Qed.

(** X10. Submitting the form posts exactly one request, without an
    [Authorization] header, whatever the answer will be.  In login mode
    it goes to [/auth/login] and carries the email and the password only:
    a name typed in register mode stays in the form across a mode toggle
    but is not sent; in register mode it goes to [/auth/register] with
    email, password and name.  Toggling the mode twice gives back the
    hooks one started from. *)
Theorem submit_request_follows_mode url js reply w h value :
  let typed := (run (AuthPage.onChangeName value) w h).2 in
  let toggled := (run AuthPage.toggleAuthMode w typed).2 in
  (AuthPage.isLogin h = true ->
     requests (run (AuthPage.handleSubmit url js App.onAuthSuccess reply) w h).1 =
       requests w ++
         [mkRequest POST ((url +:+ "/api") +:+ "/auth/login") []
            (JsonBody [("email", AuthPage.form_email (AuthPage.formData h));
                       ("password", AuthPage.form_password (AuthPage.formData h))])]) /\
  (AuthPage.isLogin h = false ->
     requests (run (AuthPage.handleSubmit url js App.onAuthSuccess reply) w h).1 =
       requests w ++
         [mkRequest POST ((url +:+ "/api") +:+ "/auth/register") []
            (JsonBody [("email", AuthPage.form_email (AuthPage.formData h));
                       ("password", AuthPage.form_password (AuthPage.formData h));
                       ("name", AuthPage.form_name (AuthPage.formData h))])]) /\
  (AuthPage.isLogin h = false ->
     AuthPage.form_name (AuthPage.formData toggled) = value /\
     requests (run (AuthPage.handleSubmit url js App.onAuthSuccess reply) w toggled).1 =
       requests w ++
         [mkRequest POST ((url +:+ "/api") +:+ "/auth/login") []
            (JsonBody [("email", AuthPage.form_email (AuthPage.formData h));
                       ("password", AuthPage.form_password (AuthPage.formData h))])]) /\
  (run AuthPage.toggleAuthMode w (run AuthPage.toggleAuthMode w h).2).2 = h.
Proof.
  cbn zeta. split; [|split; [|split]].
  - intros Hl. rewrite handleSubmit_requests. unfold AuthPage.payload. by rewrite Hl.
  - intros Hl. rewrite handleSubmit_requests. unfold AuthPage.payload. by rewrite Hl.
  - intros Hl. split; [done|].
    rewrite handleSubmit_requests. unfold AuthPage.payload.
    unfold AuthPage.toggleAuthMode, AuthPage.onChangeName, AuthPage.setIsLogin,
      AuthPage.setFormData. unfold_monad. cbn. by rewrite Hl.
  - unfold AuthPage.toggleAuthMode, AuthPage.setIsLogin. unfold_monad. cbn.
    rewrite negb_involutive. by destruct h.
Qed.

Lemma submit_request_follows_mode_witness :
  AuthPage.isLogin (AuthPage.mkHooks false (AuthPage.mkForm "ana@example.com" "pw" "") false)
    = false /\
  requests
    (run (AuthPage.handleSubmit ex_host ex_stringify App.onAuthSuccess
            (mkPromise 1 (@Rejected (AxiosResponse AuthData) ex_server_error)))
       ex_anonymous
       (run AuthPage.toggleAuthMode ex_anonymous
          (run (AuthPage.onChangeName "Ana") ex_anonymous
             (AuthPage.mkHooks false (AuthPage.mkForm "ana@example.com" "pw" "") false)).2).2).1
  = [mkRequest POST ((ex_host +:+ "/api") +:+ "/auth/login") []
       (JsonBody [("email", "ana@example.com"); ("password", "pw")])].
Proof.
  split; [reflexivity|].
  exact (proj2 (proj1 (proj2 (proj2
           (submit_request_follows_mode ex_host ex_stringify
              (mkPromise 1 (Rejected ex_server_error)) ex_anonymous
              (AuthPage.mkHooks false (AuthPage.mkForm "ana@example.com" "pw" "") false)
              "Ana"))) eq_refl)).
Defined.

(** *** Navigation buttons *)





(** *** What the pages list *)

(** X12. Once loaded, the Dashboard shows the "no analyses yet" text
    exactly when the list is empty, and otherwise one card for each of the
    first six analyses, in the order of the list: never more than six, and
    card [i] carries the id and the score of analysis [i]. *)
Theorem dashboard_shows_first_six nts h :
  Dashboard.loading h = false ->
  exists n t s sg im up recent,
    Dashboard.render nts h = Dashboard.Page n t s sg im up recent /\
    (recent = Dashboard.NoAnalysesYet <-> Dashboard.analyses h = []) /\
    (Dashboard.analyses h <> [] ->
     exists cs,
       recent = Dashboard.Cards cs /\
       length cs = Nat.min 6 (length (Dashboard.analyses h)) /\
       (forall i c, cs !! i = Some c ->
          (i < 6)%nat /\
          exists a, Dashboard.analyses h !! i = Some a /\
                    Dashboard.card_id c = analysis_id a /\
                    Dashboard.card_score c = Dashboard.card_progress_score nts a)).
Proof.
  intros Hl. unfold Dashboard.render. rewrite Hl.
  do 7 eexists. split; [reflexivity|].
  destruct (Dashboard.analyses h) as [|a0 l] eqn:E.
  - split; [done|]. by intros [].
  - split; [split; discriminate|]. intros _.
    eexists. split; [reflexivity|]. split.
    + by rewrite length_fmap, length_take.
    + intros i c Hc. rewrite list_lookup_fmap in Hc.
      destruct (take 6 (a0 :: l) !! i) as [a|] eqn:Ea; [|done].
      injection Hc as <-.
      apply lookup_take_Some in Ea as [Ea Hi].
      split; [done|]. exists a. done.
Qed.

Lemma dashboard_shows_first_six_witness :
  Dashboard.loading (Dashboard.mkHooks None (replicate 8 ex_analysis) None false false) = false /\
  exists n t s sg im up recent,
    Dashboard.render ex_toString
      (Dashboard.mkHooks None (replicate 8 ex_analysis) None false false)
      = Dashboard.Page n t s sg im up recent /\
    (recent = Dashboard.NoAnalysesYet <->
     Dashboard.analyses (Dashboard.mkHooks None (replicate 8 ex_analysis) None false false) = []).
Proof.
  split; [reflexivity|].
  destruct (dashboard_shows_first_six ex_toString
              (Dashboard.mkHooks None (replicate 8 ex_analysis) None false false) eq_refl)
    as (n & t & s & sg & im & up & recent & H1 & H2 & _).
  exists n, t, s, sg, im, up, recent. exact (conj H1 H2).
Defined.

(** X13. Once loaded with a non-empty list, the Progress page lists every
    analysis, without truncation: the timeline and the chart data have one
    entry per analysis, in the order of the list, numbered from 1; entry
    [i] carries the id of analysis [i], and its chart point the charted
    score and the formatted date of that analysis. *)
Theorem progress_lists_every_analysis nts fmt up h :
  ProgressPage.loading h = false ->
  ProgressPage.analyses h <> [] ->
  exists total streak chart items,
    ProgressPage.render nts h = ProgressPage.Page total streak chart items /\
    length items = length (ProgressPage.analyses h) /\
    length chart = length (ProgressPage.analyses h) /\
    length (ProgressPage.progressChartData fmt h) = length (ProgressPage.analyses h) /\
    (forall i a, ProgressPage.analyses h !! i = Some a ->
       items !! i = Some (ProgressPage.mkItem (analysis_id a) (i + 1)
                            (ProgressPage.timeline_progress_score nts a)
                            (ProgressPage.item_focus (ProgressPage.timeline_item nts i a))) /\
       chart !! i = Some (ProgressPage.chart_score a) /\
       ProgressPage.progressChartData fmt h !! i =
         Some (ProgressPage.mkPoint (fmt (analysis_date a)) (ProgressPage.chart_score a) (i + 1))) /\
    length (ProgressPage.muscleData up h)
      = from_option (fun s => length (muscle_development s)) 0%nat (ProgressPage.stats h).
Proof.
  intros Hl Hne. unfold ProgressPage.render. rewrite Hl.
  destruct (ProgressPage.analyses h) as [|a0 l] eqn:E; [done|].
  do 4 eexists. split; [reflexivity|].
  unfold ProgressPage.progressChartData. rewrite E.
  split; [by rewrite length_imap|]. split; [by rewrite length_fmap|].
  split; [by rewrite length_imap|]. split.
  - intros i a Ha. rewrite !list_lookup_imap, list_lookup_fmap, Ha. done.
  - unfold ProgressPage.muscleData. destruct (ProgressPage.stats h); [|done].
    cbn. by rewrite length_fmap.
Qed.

Lemma progress_lists_every_analysis_witness :
  ProgressPage.loading (ProgressPage.mkHooks [ex_analysis; ex_unscored] None false) = false /\
  ProgressPage.analyses (ProgressPage.mkHooks [ex_analysis; ex_unscored] None false) <> [] /\
  exists total streak chart items,
    ProgressPage.render ex_toString (ProgressPage.mkHooks [ex_analysis; ex_unscored] None false)
      = ProgressPage.Page total streak chart items /\
    length items = 2%nat.
Proof.
  split; [reflexivity|]. split; [discriminate|].
  destruct (progress_lists_every_analysis ex_toString (fun d => d) (fun c => c)
              (ProgressPage.mkHooks [ex_analysis; ex_unscored] None false) eq_refl)
    as (total & streak & chart & items & H1 & H2 & _); [discriminate|].
  exists total, streak, chart, items. exact (conj H1 H2).
Defined.

(** *** Scores and levels *)

Lemma Qfloor_half_of_zero (x : Q) : (x == 0)%Q -> Qfloor (x + (1 # 2)) = 0%Z.
Proof.
  intros Hx.
  assert (x + (1 # 2) == 1 # 2)%Q as -> by lra.
  reflexivity.
Qed.

(** X14. The chart and the timeline of the Progress page disagree on a
    score of zero: the chart's [a.progress_score || 50] plots 50 for it,
    as for a missing score, while the timeline prints ["0"].  The chart
    therefore never plots a zero; every other present score is plotted as
    it is. *)
Theorem chart_never_plots_zero nts (a : Analysis) :
  ~ (ProgressPage.chart_score a == 0)%Q /\
  (forall x, progress_score a = Some x -> ~ (x == 0)%Q -> ProgressPage.chart_score a = x) /\
  (forall x, progress_score a = Some x -> (x == 0)%Q ->
     ProgressPage.chart_score a = 50%Q /\
     ProgressPage.timeline_progress_score nts a = RString "0") /\
  (progress_score a = None -> ProgressPage.chart_score a = 50%Q).
Proof.
  unfold ProgressPage.chart_score, ProgressPage.timeline_progress_score.
  destruct (progress_score a) as [x|]; cbn [fmap option_fmap option_map].
  - destruct (Qeq_bool x 0) eqn:E.
    + apply Qeq_bool_eq in E.
      split; [intros H; discriminate H|]. split; [intros ? [= <-] Hn; by destruct Hn|].
      split; [|done]. intros ? [= <-] _. split; [done|].
      unfold toFixed0.
      destruct (Qlt_le_dec x 0) as [Hneg|_]; [lra|].
      destruct (Qlt_le_dec x (inject_Z pow10_21)) as [_|Hge].
      * by rewrite (Qfloor_half_of_zero x E).
      * exfalso. assert (inject_Z pow10_21 <= 0)%Q as H0 by lra. by apply H0.
    + apply Qeq_bool_neq in E.
      split; [done|]. split; [by intros ? [= <-] _|].
      split; [|done]. intros ? [= <-] H0. by destruct E.
  - split; [intros H; discriminate H|]. done.
Qed.

Lemma chart_never_plots_zero_witness :
  progress_score (mkAnalysis "a3" "2025-01-03" (Some 0%Q) [] None None None None) = Some 0%Q /\
  (0 == 0)%Q /\
  ProgressPage.chart_score (mkAnalysis "a3" "2025-01-03" (Some 0%Q) [] None None None None)
    = 50%Q /\
  ProgressPage.timeline_progress_score ex_toString
    (mkAnalysis "a3" "2025-01-03" (Some 0%Q) [] None None None None) = RString "0".
Proof.
  split; [reflexivity|]. split; [reflexivity|].
  exact (proj1 (proj2 (proj2 (chart_never_plots_zero ex_toString
                  (mkAnalysis "a3" "2025-01-03" (Some 0%Q) [] None None None None))))
           0%Q eq_refl eq_refl).
Defined.



Lemma Qfloor_half_of_integer (x : Q) (z : Z) :
  (x == inject_Z z)%Q -> Qfloor (x + (1 # 2)) = z.
Proof.
  intros Hx.
  pose proof (Qfloor_le (x + (1 # 2))) as Hlo.
  pose proof (Qlt_floor (x + (1 # 2))) as Hhi.
  rewrite inject_Z_plus in Hhi. change (inject_Z 1) with 1%Q in Hhi.
  assert (x <= inject_Z z)%Q as Hle by (rewrite Hx; apply Qle_refl).
  assert (inject_Z z <= x)%Q as Hge by (rewrite Hx; apply Qle_refl).
  assert (inject_Z (Qfloor (x + (1 # 2))) < inject_Z (z + 1))%Q as H1.
  { rewrite inject_Z_plus. change (inject_Z 1) with 1%Q.
    set (q := inject_Z z) in *. set (f := inject_Z (Qfloor (x + (1 # 2)))) in *.
    clearbody q f. lra. }
  assert (inject_Z z < inject_Z (Qfloor (x + (1 # 2)) + 1))%Q as H2.
  { rewrite inject_Z_plus. change (inject_Z 1) with 1%Q.
    set (q := inject_Z z) in *. set (f := inject_Z (Qfloor (x + (1 # 2)))) in *.
    clearbody q f. lra. }
  rewrite <- Zlt_Qlt in H1, H2. lia.
Qed.

(** X16. A score on the 0-100 scale is displayed as a decimal integer on
    the same scale, whatever [Number::toString] does: the text read back
    is an integer between 0 and 100, it is the score itself when the score
    is an integer, and a half is rounded up (72.5 is shown as 73). *)
Theorem score_display_within_scale nts (a : Analysis) (x : Q) :
  progress_score a = Some x ->
  (0 <= x)%Q -> (x <= 100)%Q ->
  exists n : Z,
    (0 <= n <= 100)%Z /\
    Dashboard.card_progress_score nts a = RString (digits (Z.to_N n)) /\
    parseInt (digits (Z.to_N n)) = Some n /\
    (forall z, (x == inject_Z z)%Q -> n = z) /\
    (forall z, (x == inject_Z z + (1 # 2))%Q -> n = (z + 1)%Z).
Proof.
  intros Hx H0 H100.
  destruct (round_half_up x H0) as [Hn _].
  exists (Qfloor (x + (1 # 2))).
  assert (Hlt : (x < inject_Z pow10_21)%Q).
  { eapply Qle_lt_trans; [exact H100|]. reflexivity. }
  split; [split; [done|]|].
  - change 100%Z with (Qfloor (201 # 2)). apply Qfloor_resp_le. lra.
  - split; [|split; [|split]].
    + unfold Dashboard.card_progress_score. rewrite Hx. cbn [fmap option_fmap option_map].
      rewrite (toFixed0_nonneg nts x H0 Hlt).
      apply or_number_present, digits_nonempty.
    + rewrite parseInt_digits. by rewrite Z2N.id.
    + intros z Hz. by apply Qfloor_half_of_integer.
    + intros z Hz. rewrite (Qfloor_comp (x + (1 # 2)) (inject_Z (z + 1))).
      * apply Qfloor_Z.
      * rewrite inject_Z_plus, Hz. change (inject_Z 1) with 1%Q. ring.
Qed.

Lemma score_display_within_scale_witness :
  progress_score ex_analysis = Some (145 # 2)%Q /\
  (0 <= 145 # 2)%Q /\ (145 # 2 <= 100)%Q /\
  exists n : Z,
    (0 <= n <= 100)%Z /\
    Dashboard.card_progress_score ex_toString ex_analysis = RString (digits (Z.to_N n)).
Proof.
  split; [reflexivity|]. split; [discriminate|]. split; [discriminate|].
  destruct (score_display_within_scale ex_toString ex_analysis (145 # 2)%Q eq_refl)
    as (n & Hn & Hc & _); [discriminate | discriminate |].
  exists n. exact (conj Hn Hc).
Defined.

(** X17. Where an expired session ends: when the Dashboard's join
    surfaces a 401, the router is sent to ["/"], and because the App's
    [isAuthenticated] hook is not reset the root route sends a user whose
    hook was set on to [/dashboard] and its guard on to [/auth]: the
    login form is what is finally shown, not the landing page, which only
    a browser with the hook unset would see. *)
Theorem expired_session_ends_on_login_form url me hist st w h err :
  outcome (Promise_all3 me hist st) = Rejected err ->
  status_is err 401 = true ->
  let w' := (run (Dashboard.loadData url me hist st) w h).1 in
  history w' = history w ++ ["/"] /\
  isAuthenticated w' = isAuthenticated w /\
  (isAuthenticated w = true -> forall fuel, App.render (S (S fuel)) w' = Some App.AuthPage) /\
  (isAuthenticated w = false -> forall fuel, App.render fuel w' = Some App.LandingPage).
Proof.
  intros Hj H401. cbn zeta.
  destruct (loadData_unauthorized url me hist st w h err Hj H401) as (Ht & _ & Hloc).
  set (w' := (run (Dashboard.loadData url me hist st) w h).1) in *.
  assert (Hh : history w' = history w ++ ["/"]).
  { subst w'. by rewrite (loadData_rejected _ _ _ _ _ _ _ Hj), H401. }
  assert (Hf : isAuthenticated w' = isAuthenticated w).
  { subst w'. by rewrite (loadData_rejected _ _ _ _ _ _ _ Hj). }
  split; [done|]. split; [done|]. split.
  - intros Ha fuel. apply render_root_stale_flag; [done|by rewrite Hf|by rewrite Ht].
  - intros Ha fuel. apply render_page; [|done].
    by rewrite (Routes_root _ Hloc), Hf, Ha.
Qed.

Lemma expired_session_ends_on_login_form_witness :
  outcome (Promise_all3 (mkPromise 1 (@Rejected (AxiosResponse User) ex_unauthorized))
             (mkPromise 2 (@Rejected (AxiosResponse (list Analysis)) ex_unauthorized))
             (mkPromise 3 (@Rejected (AxiosResponse ProgressStats) ex_unauthorized)))
    = Rejected ex_unauthorized /\
  status_is ex_unauthorized 401 = true /\
  isAuthenticated ex_world = true /\
  App.render 2
    (run (Dashboard.loadData ex_host (mkPromise 1 (Rejected ex_unauthorized))
            (mkPromise 2 (Rejected ex_unauthorized)) (mkPromise 3 (Rejected ex_unauthorized)))
       ex_world Dashboard.init).1 = Some App.AuthPage.
Proof.
  split; [reflexivity|]. split; [reflexivity|]. split; [reflexivity|].
  exact (proj1 (proj2 (proj2
           (expired_session_ends_on_login_form ex_host
              (mkPromise 1 (Rejected ex_unauthorized))
              (mkPromise 2 (Rejected ex_unauthorized))
              (mkPromise 3 (Rejected ex_unauthorized))
              ex_world Dashboard.init ex_unauthorized eq_refl eq_refl)))
           eq_refl 0%nat).
Defined.
